(** * Wunderkind: world model, dialogue turn and hardware monitor

    A shallow embedding of [world_model.py], [chat_handler_world.py], the
    message formatting of [api_handler.py] and the polling loop of
    [src/hardware/hardware_integration.py], followed by the properties
    of the specification that were checked against them.

    Modelling conventions.
    - A Python [str] is a list of characters ([str := list ascii]): text is
      restricted to code points below 256.
    - Python code mutates objects and may raise: an operation is a function
      [S -> result A * S].  The state returned next to [Raise e] is the state
      at the point of the raise, because mutations made before an exception
      are not rolled back.
    - [except Exception] handlers are modelled by [try_except]; only
      subclasses of [Exception] are represented in [exn].
    - Logging calls have no effect on the modelled state and are dropped,
      except that the hardware monitor keeps the list of event types passed
      to [_handle_event]. *)

From Stdlib Require Import List Ascii Bool Arith ZArith Lia FinFun.
Import ListNotations.

Set Implicit Arguments.
Set Warnings "-via-type-remapping,-via-type-mismatch".

(** ** Python strings *)

Abbreviation str := (list ascii).

Inductive str_literal := LNil | LCons (c : ascii) (s : str_literal).

Fixpoint str_parse (b : list Byte.byte) : str_literal :=
  match b with
  | [] => LNil
  | x :: r => LCons (ascii_of_byte x) (str_parse r)
  end.

Fixpoint str_print (s : str_literal) : list Byte.byte :=
  match s with
  | LNil => []
  | LCons x r => byte_of_ascii x :: str_print r
  end.

Declare Scope str_scope.
Delimit Scope str_scope with str.
String Notation list str_parse str_print
  (via str_literal mapping [[nil] => LNil, [cons] => LCons]) : str_scope.
Open Scope str_scope.
Open Scope Z_scope.

Module Py.

(** [a == b] on characters and strings. *)
Definition chr_eqb (a b : ascii) : bool := Ascii.eqb a b.

Fixpoint str_eqb (a b : str) : bool :=
  match a, b with
  | [], [] => true
  | x :: a', y :: b' => chr_eqb x y && str_eqb a' b'
  | _, _ => false
  end.

(** [c in chars] for a character. *)
Definition chr_in (c : ascii) (chars : str) : bool := existsb (chr_eqb c) chars.

(** [s.startswith(p)]. *)
Fixpoint startswith (p s : str) : bool :=
  match p, s with
  | [], _ => true
  | x :: p', y :: s' => chr_eqb x y && startswith p' s'
  | _ :: _, [] => false
  end.

(** [p in s]: some slice of [s] equals [p]. *)
Fixpoint contains (p s : str) : bool :=
  startswith p s ||
  match s with
  | [] => false
  | _ :: s' => contains p s'
  end.

(** [str.lower] below code point 256: the letters A..Z and the accented
    capitals U+00C0..U+00DE (the sign U+00D7 apart) move up by 32. *)
Definition lower_chr (c : ascii) : ascii :=
  let n := nat_of_ascii c in
  if (Nat.leb 65 n && Nat.leb n 90)
     || (Nat.leb 192 n && Nat.leb n 222 && negb (Nat.eqb n 215))
  then ascii_of_nat (n + 32) else c.

Definition lower (s : str) : str := map lower_chr s.

(** The leftmost occurrence of [sep] in [s]: the text before it and the
    text after it.  This is the search step of [str.split]. *)
Fixpoint split_once (sep s : str) : option (str * str) :=
  if startswith sep s then Some ([], skipn (length sep) s)
  else match s with
       | [] => None
       | c :: s' =>
           match split_once sep s' with
           | Some (a, b) => Some (c :: a, b)
           | None => None
           end
       end.

(** [str.split(sep)] for a non-empty separator: cut at the leftmost
    occurrence, then go on in the text after it.  [fuel] bounds the number
    of cuts; [length s] cuts are never exceeded ([split_fuel_enough]). *)
Fixpoint split_fuel (fuel : nat) (sep s : str) : list str :=
  match fuel with
  | O => [s]
  | S n =>
      match split_once sep s with
      | None => [s]
      | Some (a, b) => a :: split_fuel n sep b
      end
  end.

Definition split_nonempty (sep s : str) : list str :=
  split_fuel (length s) sep s.

(** [s.lstrip(chars)], [s.rstrip(chars)], [s.strip(chars)]. *)
Fixpoint lstrip (chars s : str) : str :=
  match s with
  | [] => []
  | c :: s' => if chr_in c chars then lstrip chars s' else s
  end.

Definition rstrip (chars s : str) : str := rev (lstrip chars (rev s)).

Definition strip (chars s : str) : str := rstrip chars (lstrip chars s).

(** [sep.join(items)]. *)
Fixpoint join (sep : str) (items : list str) : str :=
  match items with
  | [] => []
  | [x] => x
  | x :: rest => x ++ sep ++ join sep rest
  end.

(** The start index of the slice [l[start:]]: a negative start counts from
    the end, and both ends are clamped. *)
Definition slice_start (start : Z) (len : nat) : nat :=
  if start <? 0 then Z.to_nat (Z.max 0 (start + Z.of_nat len))
  else Z.to_nat (Z.min start (Z.of_nat len)).

(** [l[start:]]. *)
Definition slice_from (A : Type) (start : Z) (l : list A) : list A :=
  skipn (slice_start start (length l)) l.

End Py.

(** ** Exceptions and effects *)

(** The subclasses of [Exception] that the modelled code can meet.
    [ExternalError] stands for a failure of a collaborator outside the
    repository (the OpenAI client, the GPIO driver, a registered callback).
    [SystemExit], [KeyboardInterrupt] and [GeneratorExit] derive from
    [BaseException] only: no [except Exception] handler catches them, and
    no operation of this model raises them. *)
Inductive exn :=
| AttributeError (name : str)
| IndexError
| TypeError
| ValueError
| ExternalError (msg : str).

Inductive result (A : Type) :=
| Ok (a : A)
| Raise (e : exn).

Arguments Ok {A} a.
Arguments Raise {A} e.

(** A method acting on an object of type [S]. *)
Definition Eff (S A : Type) : Type := S -> result A * S.

Definition ret {S A} (a : A) : Eff S A := fun s => (Ok a, s).

Definition raise {S A} (e : exn) : Eff S A := fun s => (Raise e, s).

Definition bind {S A B} (m : Eff S A) (k : A -> Eff S B) : Eff S B :=
  fun s =>
    match m s with
    | (Ok a, s') => k a s'
    | (Raise e, s') => (Raise e, s')
    end.

(** [try: m  except Exception as e: handler e]. *)
Definition try_except {S A} (m : Eff S A) (handler : exn -> Eff S A) : Eff S A :=
  fun s =>
    match m s with
    | (Ok a, s') => (Ok a, s')
    | (Raise e, s') => handler e s'
    end.

Definition get_self {S} : Eff S S := fun s => (Ok s, s).

Definition modify {S} (f : S -> S) : Eff S unit := fun s => (Ok tt, f s).

(** A value that was computed without touching the object. *)
Definition lift_result {S A} (r : result A) : Eff S A := fun s => (r, s).

(** Run a method of a field of the object. *)
Definition on_field {S T A} (proj : S -> T) (upd : T -> S -> S) (m : Eff T A)
  : Eff S A :=
  fun s => let (r, t') := m (proj s) in (r, upd t' s).

Declare Scope eff_scope.
Delimit Scope eff_scope with eff.
Notation "x <- m ;; k" := (bind m (fun x => k))
  (at level 61, m at next level, right associativity) : eff_scope.
Notation "m ;; k" := (bind m (fun _ => k))
  (at level 61, right associativity) : eff_scope.
Open Scope eff_scope.

Module PyData.

(** [l[i]] with Python's negative indices. *)
Definition getitem (A : Type) (l : list A) (i : Z) : result A :=
  let len := Z.of_nat (length l) in
  let j := if i <? 0 then i + len else i in
  if (j <? 0) || (len <=? j) then Raise IndexError
  else match nth_error l (Z.to_nat j) with
       | Some x => Ok x
       | None => Raise IndexError
       end.

(** [s.split(sep)]: an empty separator is a [ValueError]. *)
Definition split (sep s : str) : result (list str) :=
  match sep with
  | [] => Raise ValueError
  | _ :: _ => Ok (Py.split_nonempty sep s)
  end.

(** A [dict] with [str] keys and values, in insertion order.  The values
    this repository stores in a WorldModel are always [str]. *)
Definition dict := list (str * str).

Fixpoint dict_get (k : str) (d : dict) : option str :=
  match d with
  | [] => None
  | (k', v) :: r => if Py.str_eqb k' k then Some v else dict_get k r
  end.

(** [d[k] = v]: an existing key keeps its position, a new one goes last. *)
Fixpoint dict_set (k v : str) (d : dict) : dict :=
  match d with
  | [] => [(k, v)]
  | (k', v') :: r =>
      if Py.str_eqb k' k then (k', v) :: r else (k', v') :: dict_set k v r
  end.

Definition dict_keys (d : dict) : list str := map fst d.

(** [repr] of a [str]: single quotes unless the text has a single quote
    and no double quote; the quote and the backslash are escaped, control
    and non-printable characters are written as escapes. *)
Definition squote : ascii := ascii_of_nat 39.
Definition dquote : ascii := ascii_of_nat 34.
Definition backslash : ascii := ascii_of_nat 92.

Definition hex_digit (n : nat) : ascii := nth n "0123456789abcdef" "0"%char.

Definition repr_chr (quote c : ascii) : str :=
  let n := nat_of_ascii c in
  if Py.chr_eqb c quote || Py.chr_eqb c backslash then [backslash; c]
  else if Nat.eqb n 9 then [backslash; "t"%char]
  else if Nat.eqb n 10 then [backslash; "n"%char]
  else if Nat.eqb n 13 then [backslash; "r"%char]
  else if Nat.ltb n 32 || Nat.eqb n 127
          || (Nat.leb 128 n && Nat.leb n 160) || Nat.eqb n 173
       then [backslash; "x"%char; hex_digit (Nat.div n 16); hex_digit (Nat.modulo n 16)]
       else [c].

Definition repr_str (s : str) : str :=
  let quote :=
    if Py.chr_in squote s && negb (Py.chr_in dquote s) then dquote else squote in
  [quote] ++ flat_map (repr_chr quote) s ++ [quote].

(** [repr] of a list of [str] and of a [dict]. *)
Definition repr_list (l : list str) : str :=
  "[" ++ Py.join ", " (map repr_str l) ++ "]".

Definition repr_dict (d : dict) : str :=
  "{" ++ Py.join ", " (map (fun kv => repr_str (fst kv) ++ ": " ++ repr_str (snd kv)) d)
      ++ "}".

End PyData.

(** ** world_model.py *)

Module WorldModel.
Import PyData.

Record t := mk {
  state : dict;
  facts : list str;
  user_preferences : dict;
  hardware_events : list str
}.

(** [WorldModel()]. *)
Definition init : t := mk [] [] [] [].

Definition add_fact (fact : str) (self : t) : t :=
  mk (state self) (facts self ++ [fact]) (user_preferences self)
     (hardware_events self).

Definition update_hardware_event (event_description : str) (self : t) : t :=
  mk (state self) (facts self) (user_preferences self)
     (hardware_events self ++ [event_description]).

Definition set_state (key value : str) (self : t) : t :=
  mk (dict_set key value (state self)) (facts self) (user_preferences self)
     (hardware_events self).

Definition get_state (key : str) (self : t) : option str :=
  dict_get key (state self).

Definition is_empty (A : Type) (l : list A) : bool :=
  match l with [] => true | _ :: _ => false end.

Definition get_summary (self : t) : str :=
  let lines :=
    [ if is_empty (facts self) then "No known facts yet."
      else "Facts: " ++ Py.join "; " (facts self);
      if is_empty (hardware_events self) then "No hardware events recorded."
      else "Hardware Events: " ++ Py.join "; " (hardware_events self);
      if is_empty (state self) then "No internal state set yet."
      else "State keys: " ++ repr_list (dict_keys (state self));
      if is_empty (user_preferences self) then "No user preferences stored."
      else "User Preferences: " ++ repr_dict (user_preferences self) ] in
  Py.join [ascii_of_nat 10] lines.

Definition update_user_preference (preference_name preference_value : str)
  (self : t) : t :=
  mk (state self) (facts self)
     (dict_set preference_name preference_value (user_preferences self))
     (hardware_events self).

Definition clear (self : t) : t := mk [] [] [] [].

(** What a method call returns. *)
Inductive pyval :=
| PyNone
| PyStr (s : str).

(** [self.<name>(args)] for a name that is not an attribute of every
    object: the [def]s of the class are called, with a [TypeError] for a
    wrong number of arguments; the four data attributes are not callable;
    any other name is an [AttributeError]. *)
Definition lookup (name : str) : option (list str -> Eff t pyval) :=
  if existsb (Py.str_eqb name) ["state"; "facts"; "user_preferences"; "hardware_events"]
  then Some (fun _ => raise TypeError)
  else if Py.str_eqb name "add_fact" then
    Some (fun args => match args with
                      | [fact] => modify (add_fact fact) ;; ret PyNone
                      | _ => raise TypeError
                      end)
  else if Py.str_eqb name "update_hardware_event" then
    Some (fun args => match args with
                      | [d] => modify (update_hardware_event d) ;; ret PyNone
                      | _ => raise TypeError
                      end)
  else if Py.str_eqb name "set_state" then
    Some (fun args => match args with
                      | [k; v] => modify (set_state k v) ;; ret PyNone
                      | _ => raise TypeError
                      end)
  else if Py.str_eqb name "get_state" then
    Some (fun args => match args with
                      | [k] => self <- get_self ;;
                               ret (match get_state k self with
                                    | Some v => PyStr v
                                    | None => PyNone
                                    end)
                      | _ => raise TypeError
                      end)
  else if Py.str_eqb name "get_summary" then
    Some (fun args => match args with
                      | [] => self <- get_self ;; ret (PyStr (get_summary self))
                      | _ => raise TypeError
                      end)
  else if Py.str_eqb name "update_user_preference" then
    Some (fun args => match args with
                      | [k; v] => modify (update_user_preference k v) ;; ret PyNone
                      | _ => raise TypeError
                      end)
  else if Py.str_eqb name "clear" then
    Some (fun args => match args with
                      | [] => modify clear ;; ret PyNone
                      | _ => raise TypeError
                      end)
  else None.

Definition call (name : str) (args : list str) : Eff t pyval :=
  match lookup name with
  | Some method => method args
  | None => raise (AttributeError name)
  end.

(** The operations of the class, for stating what they preserve. *)
Inductive op :=
| AddFact (fact : str)
| UpdateHardwareEvent (event_description : str)
| SetState (key value : str)
| GetState (key : str)
| GetSummary
| UpdateUserPreference (preference_name preference_value : str)
| Clear.

Definition op_name (o : op) : str :=
  match o with
  | AddFact _ => "add_fact"
  | UpdateHardwareEvent _ => "update_hardware_event"
  | SetState _ _ => "set_state"
  | GetState _ => "get_state"
  | GetSummary => "get_summary"
  | UpdateUserPreference _ _ => "update_user_preference"
  | Clear => "clear"
  end.

Definition op_args (o : op) : list str :=
  match o with
  | AddFact f => [f]
  | UpdateHardwareEvent d => [d]
  | SetState k v => [k; v]
  | GetState k => [k]
  | GetSummary => []
  | UpdateUserPreference k v => [k; v]
  | Clear => []
  end.

Definition run_op (o : op) : Eff t pyval := call (op_name o) (op_args o).

(** The object after a sequence of calls. *)
Definition run_ops (ops : list op) (self : t) : t :=
  fold_left (fun w o => snd (run_op o w)) ops self.

Definition is_clear (o : op) : bool :=
  match o with Clear => true | _ => false end.

End WorldModel.

(** ** The world model as its clients see it

    [ChatHandlerWorld] and [HardwareIntegration] receive the world model
    as a constructor argument and only call methods on it, so both are
    modelled over any object that answers these calls; each call may
    raise. *)
Class WorldModelLike (W : Type) := {
  wm_add_fact : str -> Eff W unit;
  wm_update_hardware_event : str -> Eff W unit;
  wm_update_hardware_state : str -> str -> Eff W unit;
  wm_update_user_preference : str -> str -> Eff W unit;
  wm_set_state : str -> str -> Eff W unit;
  wm_get_summary : Eff W str
}.

(** A call whose return value is not used. *)
Definition discard {S A} (m : Eff S A) : Eff S unit := m ;; ret tt.

(** A call that must have returned a [str]. *)
Definition expect_str {S} (m : Eff S WorldModel.pyval) : Eff S str :=
  v <- m ;;
  match v with
  | WorldModel.PyStr s => ret s
  | WorldModel.PyNone => raise TypeError
  end.

(** The [WorldModel] of world_model.py behind that interface. *)
#[export] Instance WorldModel_calls : WorldModelLike WorldModel.t := {
  wm_add_fact f := discard (WorldModel.call "add_fact" [f]);
  wm_update_hardware_event d := discard (WorldModel.call "update_hardware_event" [d]);
  wm_update_hardware_state c v :=
    discard (WorldModel.call "update_hardware_state" [c; v]);
  wm_update_user_preference k v :=
    discard (WorldModel.call "update_user_preference" [k; v]);
  wm_set_state k v := discard (WorldModel.call "set_state" [k; v]);
  wm_get_summary := expect_str (WorldModel.call "get_summary" [])
}.

(** [for x in items: body x]. *)
Fixpoint for_each {S A} (items : list A) (body : A -> Eff S unit) : Eff S unit :=
  match items with
  | [] => ret tt
  | x :: rest => body x ;; for_each rest body
  end.

Definition nl : str := [ascii_of_nat 10].

(** ** api_handler.py: what is sent to the OpenAI client *)

Module APIHandler.

Record chat_message := mk_chat { role : str; content : str }.

(** [formatted_messages]: the system prompt, when given and not empty, is
    put in front of the caller's messages. *)
Definition format_messages (messages : list chat_message)
  (system_prompt : option str) : list chat_message :=
  match system_prompt with
  | Some (c :: p) => [mk_chat "system" (c :: p)]
  | Some [] | None => []
  end ++ messages.

(** The characters removed by [str.strip()] without argument. *)
Definition whitespace : str :=
  map ascii_of_nat [9; 10; 11; 12; 13; 28; 29; 30; 31; 32; 133; 160]%nat.

(** One run of the body of [generate_response]: [acreate] is the answer of
    [openai.ChatCompletion.acreate] to the formatted messages (the content
    of its first choice); every exception is logged and re-raised. *)
Definition attempt (acreate : list chat_message -> result str)
  (messages : list chat_message) (system_prompt : option str) : result str :=
  match acreate (format_messages messages system_prompt) with
  | Ok content => Ok (Py.strip whitespace content)
  | Raise e => Raise e
  end.

(** [@retry(stop=stop_after_attempt(3), reraise=True)]: a failed attempt is
    repeated, the third failure is re-raised.  [client n] is the OpenAI
    client at the n-th attempt. *)
Definition generate_response (client : nat -> list chat_message -> result str)
  (messages : list chat_message) (system_prompt : option str) : result str :=
  match attempt (client 0%nat) messages system_prompt with
  | Ok text => Ok text
  | Raise _ =>
      match attempt (client 1%nat) messages system_prompt with
      | Ok text => Ok text
      | Raise _ => attempt (client 2%nat) messages system_prompt
      end
  end.

End APIHandler.

(** ** chat_handler_world.py *)

Module ChatHandlerWorld.
Import PyData.
Import APIHandler.

(** An entry of [conversation_history]. *)
Record message := mk_message { msg_role : str; msg_content : str; msg_timestamp : str }.

(** The two configuration keys the handler reads; [None] is an absent key. *)
Record Config := mk_config {
  SYSTEM_PROMPT : option str;
  MAX_CONVERSATION_HISTORY : option Z
}.

Record t (W : Type) := mk {
  config : Config;
  world_model : W;
  conversation_history : list message;
  max_history : Z
}.

Arguments mk {W} _ _ _ _.

Definition init {W} (c : Config) (wm : W) : t W :=
  mk c wm []
     (match MAX_CONVERSATION_HISTORY c with Some n => n | None => 10 end).

(** The language-model collaborator: [api_handler.generate_response]. *)
Definition api_call := list chat_message -> option str -> result str.

Definition hardware_keywords : list str := ["button"; "motion"; "sensor"; "led"].

Definition full_system_prompt_text (system_prompt world_summary : str) : str :=
  system_prompt ++ nl ++ nl
  ++ "Here is a summary of known facts and events so far:" ++ nl
  ++ world_summary ++ nl ++ nl
  ++ "Use this information to provide coherent answers while respecting user context.".

(** The entries [generate_response] writes: user and assistant messages. *)
Definition conversational (m : message) : Prop :=
  msg_role m = "user" \/ msg_role m = "assistant".

(** An entry of the history reduced to role and content. *)
Definition to_chat (msg : message) : chat_message :=
  mk_chat (msg_role msg) (msg_content msg).

(** [messages]: the system message, then [conversation_history[-max_history:]]
    reduced to role and content. *)
Definition build_messages (full_system_prompt : str) (history : list message)
  (max_hist : Z) : list chat_message :=
  [mk_chat "system" full_system_prompt]
  ++ map to_chat (Py.slice_from (- max_hist) history).

Section Handler.
Context {W : Type} `{WorldModelLike W}.

Definition set_world_model (w : W) (self : t W) : t W :=
  mk (config self) w (conversation_history self) (max_history self).

Definition on_world {A} (m : Eff W A) : Eff (t W) A :=
  on_field (@world_model W) set_world_model m.

Definition append_history (msg : message) (self : t W) : t W :=
  mk (config self) (world_model self) (conversation_history self ++ [msg])
     (max_history self).

(** The [try] block of [_update_world_model_from_response]. *)
Definition extraction_try (response_text : str) : Eff (t W) unit :=
  (if Py.contains "I learned that" response_text then
     parts <- lift_result (split "I learned that" response_text) ;;
     piece <- lift_result (getitem parts (-1)) ;;
     let new_fact := Py.strip ". " piece in
     on_world (wm_add_fact new_fact)
   else ret tt) ;;
  (if Py.contains "you prefer" (Py.lower response_text) then
     parts <- lift_result (split "you prefer" (Py.lower response_text)) ;;
     piece <- lift_result (getitem parts 1) ;;
     let preference_text := Py.strip ". " piece in
     on_world (wm_update_user_preference "user_preference" preference_text)
   else ret tt) ;;
  for_each hardware_keywords (fun keyword =>
    if Py.contains keyword (Py.lower response_text) then
      on_world (wm_update_hardware_event
                  ("Hardware interaction mentioned: " ++ keyword))
    else ret tt).

(** The [except Exception] clause logs the error and returns. *)
Definition _update_world_model_from_response (response_text : str)
  : Eff (t W) unit :=
  try_except (extraction_try response_text) (fun _ => ret tt).

(** [config.get("SYSTEM_PROMPT", "You are a helpful AI assistant.")]. *)
Definition configured_system_prompt (c : Config) : str :=
  match SYSTEM_PROMPT c with
  | Some p => p
  | None => "You are a helpful AI assistant."
  end.

(** One turn.  [t_user] and [t_reply] are the two readings of [time()]. *)
Definition generate_response (api : api_call) (t_user t_reply : str)
  (prompt : str) : Eff (t W) str :=
  try_except
    (modify (append_history (mk_message "user" prompt t_user)) ;;
     self <- get_self ;;
     let system_prompt := configured_system_prompt (config self) in
     world_summary <- on_world wm_get_summary ;;
     let full_system_prompt := full_system_prompt_text system_prompt world_summary in
     self <- get_self ;;
     let messages :=
       build_messages full_system_prompt (conversation_history self)
                      (max_history self) in
     response_text <- lift_result (api messages (Some full_system_prompt)) ;;
     modify (append_history (mk_message "assistant" response_text t_reply)) ;;
     _update_world_model_from_response response_text ;;
     ret response_text)
    (fun e => raise e).

(** The messages of a turn that starts in [self] with summary
    [world_summary], and the answer of the collaborator to them; [None]
    when [get_summary] raises, so that the collaborator is not called. *)
Definition turn_messages (world_summary prompt t_user : str) (self : t W)
  : list chat_message :=
  build_messages
    (full_system_prompt_text (configured_system_prompt (config self)) world_summary)
    (conversation_history self ++ [mk_message "user" prompt t_user])
    (max_history self).

Definition llm_outcome (api : api_call) (t_user prompt : str) (self : t W)
  : option (result str) :=
  match wm_get_summary (world_model self) with
  | (Ok world_summary, _) =>
      Some (api (turn_messages world_summary prompt t_user self)
                (Some (full_system_prompt_text
                         (configured_system_prompt (config self)) world_summary)))
  | (Raise _, _) => None
  end.

(** [update_world_model(key, value)]. *)
Definition update_world_model (key value : str) : Eff (t W) unit :=
  on_world (wm_set_state key value).

Definition clear_history (self : t W) : t W :=
  mk (config self) (world_model self) [] (max_history self).

End Handler.

(** What [_update_world_model_from_response] does to a [WorldModel] of
    world_model.py when no step raises; [extraction_run] shows that none
    does. *)
Definition learned_fact (response_text : str) : str :=
  Py.strip ". " (last (Py.split_nonempty "I learned that" response_text) []).

Definition preference_text (response_text : str) : str :=
  Py.strip ". " (nth 1 (Py.split_nonempty "you prefer" (Py.lower response_text)) []).

Definition mention (keyword : str) : str :=
  "Hardware interaction mentioned: " ++ keyword.

Definition extraction (response_text : str) (w : WorldModel.t) : WorldModel.t :=
  let w1 :=
    if Py.contains "I learned that" response_text
    then WorldModel.add_fact (learned_fact response_text) w else w in
  let w2 :=
    if Py.contains "you prefer" (Py.lower response_text)
    then WorldModel.update_user_preference "user_preference"
           (preference_text response_text) w1
    else w1 in
  fold_left (fun w keyword =>
               if Py.contains keyword (Py.lower response_text)
               then WorldModel.update_hardware_event (mention keyword) w else w)
            hardware_keywords w2.

End ChatHandlerWorld.

(** ** src/hardware/hardware_integration.py *)

Module HardwareIntegration.
Import PyData.

(** The levels [GPIO.input] returns: RPi.GPIO's [LOW] is 0 and [HIGH] is 1. *)
Definition LOW : bool := false.
Definition HIGH : bool := true.

Section Monitor.
Context {W : Type} `{WorldModelLike W}.

(** A registered callback, as far as the shared state goes: it acts on the
    world model and may raise. *)
Definition callback : Type := Eff W unit.

(** [handled] is the list of event types [_handle_event] was called with
    (its [logger.debug] lines), oldest first. *)
Record t := mk {
  world_model : W;
  event_callbacks : list (str * callback);
  handled : list str
}.

Definition init (wm : W) : t := mk wm [] [].

Definition set_world_model (w : W) (self : t) : t :=
  mk w (event_callbacks self) (handled self).

Definition on_world {A} (m : Eff W A) : Eff t A :=
  on_field world_model set_world_model m.

Fixpoint callbacks_get (event_type : str) (d : list (str * callback))
  : option callback :=
  match d with
  | [] => None
  | (k, cb) :: r => if Py.str_eqb k event_type then Some cb else callbacks_get event_type r
  end.

Fixpoint callbacks_set (event_type : str) (cb : callback)
  (d : list (str * callback)) : list (str * callback) :=
  match d with
  | [] => [(event_type, cb)]
  | (k, cb') :: r =>
      if Py.str_eqb k event_type then (k, cb) :: r
      else (k, cb') :: callbacks_set event_type cb r
  end.

Definition register_callback (event_type : str) (cb : callback) (self : t) : t :=
  mk (world_model self) (callbacks_set event_type cb (event_callbacks self))
     (handled self).

Definition _handle_event (event_type : str) : Eff t unit :=
  let event_description := "Hardware event: " ++ event_type in
  modify (fun self => mk (world_model self) (event_callbacks self)
                         (handled self ++ [event_type])) ;;
  on_world (wm_update_hardware_event event_description) ;;
  self <- get_self ;;
  match callbacks_get event_type (event_callbacks self) with
  | Some cb => try_except (on_world cb) (fun _ => ret tt)
  | None => ret tt
  end.

(** [set_led(state)]; [gpio_output] is the outcome of [GPIO.output]. *)
Definition set_led (gpio_output : result unit) (state : bool) : Eff t unit :=
  try_except
    (lift_result gpio_output ;;
     on_world (wm_update_hardware_state "led" (if state then "on" else "off")) ;;
     on_world (wm_update_hardware_event
                 ("LED turned " ++ (if state then "on" else "off"))))
    (fun _ => ret tt).

(** The running [_monitor_loop]: the object and the two local variables. *)
Record frame := mk_frame {
  self_ : t;
  button_state : bool;
  motion_state : bool
}.

Definition on_self {A} (m : Eff t A) : Eff frame A :=
  on_field self_ (fun s fr => mk_frame s (button_state fr) (motion_state fr)) m.

Definition set_button_state (b : bool) (fr : frame) : frame :=
  mk_frame (self_ fr) b (motion_state fr).

Definition set_motion_state (b : bool) (fr : frame) : frame :=
  mk_frame (self_ fr) (button_state fr) b.

(** The [try] block of one pass of the [while] loop.  [button_read] and
    [motion_read] are the outcomes of the two [GPIO.input] calls of this
    pass (the second one is only made when the first half did not raise);
    [check_button] and [check_motion] are the two halves of the block. *)
Definition check_button (new_button_state : bool) : Eff frame unit :=
  fr <- get_self ;;
  if negb (Bool.eqb new_button_state (button_state fr)) then
    (if Bool.eqb new_button_state LOW then
       on_self (_handle_event "button_press") ;;
       on_self (on_world (wm_update_hardware_state "button" "pressed"))
     else
       on_self (on_world (wm_update_hardware_state "button" "released"))) ;;
    modify (set_button_state new_button_state)
  else ret tt.

Definition check_motion (new_motion_state : bool) : Eff frame unit :=
  fr <- get_self ;;
  if negb (Bool.eqb new_motion_state (motion_state fr)) then
    (if Bool.eqb new_motion_state HIGH then
       on_self (_handle_event "motion_detected") ;;
       on_self (on_world (wm_update_hardware_state "motion_sensor" "active"))
     else
       on_self (on_world (wm_update_hardware_state "motion_sensor" "inactive"))) ;;
    modify (set_motion_state new_motion_state)
  else ret tt.

Definition monitor_try (button_read motion_read : result bool) : Eff frame unit :=
  new_button_state <- lift_result button_read ;;
  check_button new_button_state ;;
  new_motion_state <- lift_result motion_read ;;
  check_motion new_motion_state.

(** One pass: an exception is logged, the pass ends (after a longer sleep). *)
Definition monitor_pass (reads : result bool * result bool) : Eff frame unit :=
  try_except (monitor_try (fst reads) (snd reads)) (fun _ => ret tt).

(** The passes made until the stop flag is seen, one pair of reads each. *)
Definition monitor_passes (polls : list (result bool * result bool))
  : Eff frame unit :=
  for_each polls monitor_pass.

(** [_monitor_loop]: the two initial reads, then the passes. *)
Definition _monitor_loop (button_init motion_init : result bool)
  (polls : list (result bool * result bool)) : Eff t unit :=
  fun self =>
    match button_init, motion_init with
    | Ok b, Ok m =>
        let (r, fr) := monitor_passes polls (mk_frame self b m) in
        (r, self_ fr)
    | Raise e, _ => (Raise e, self)
    | Ok _, Raise e => (Raise e, self)
    end.

End Monitor.

Arguments t W : clear implicits.
Arguments frame W : clear implicits.

(** The reads of a poll in which the button pin gives [b] and the motion
    pin gives [m], and those of a sequence of polls. *)
Definition poll (b m : bool) : result bool * result bool := (Ok b, Ok m).

Definition reads_of (levels : list (bool * bool)) : list (result bool * result bool) :=
  map (fun p => poll (fst p) (snd p)) levels.


End HardwareIntegration.

(** ** The words of the specification *)

Module Spec.

(** [p] occurs in [s] with [a] before it and [b] after it. *)
Definition occurrence (p s a b : str) : Prop := s = a ++ p ++ b.

(** The occurrence that starts first, and the one that starts last. *)
Definition first_occurrence (p s a b : str) : Prop :=
  occurrence p s a b /\
  forall a' b', occurrence p s a' b' -> (length a <= length a')%nat.

Definition last_occurrence (p s a b : str) : Prop :=
  occurrence p s a b /\
  forall a' b', occurrence p s a' b' -> (length a' <= length a)%nat.

(** The capital letters below code point 256 and, at the same position,
    their small letters: A to Z, and U+00C0 to U+00DE without the sign
    U+00D7. *)
Definition capitals : str :=
  "ABCDEFGHIJKLMNOPQRSTUVWXYZ" ++ map ascii_of_nat (seq 192 23 ++ seq 216 7).

Definition smalls : str :=
  "abcdefghijklmnopqrstuvwxyz" ++ map ascii_of_nat (seq 224 23 ++ seq 248 7).

(** [l] is the character [c] lower-cased: the small letter of a capital,
    the character itself when it is no capital. *)
Definition lower_letter (c l : ascii) : Prop :=
  In (c, l) (combine capitals smalls) \/ (~ In c capitals /\ l = c).

(** [low] is the lower-cased form of [s]. *)
Definition lower_cased (s low : str) : Prop := Forall2 lower_letter s low.

(** [keyword] is found in [reply] when case is ignored: some slice of the
    reply lower-cases to it. *)
Definition mentioned (keyword reply : str) : Prop :=
  exists a w b, reply = a ++ w ++ b /\ lower_cased w keyword.

(** [r] is [s] stripped of the characters [chars]: what is left of [s]
    once characters of [chars], and nothing else, have been taken off both
    ends until neither end of what is left is one of them. *)
Definition stripped (chars s r : str) : Prop :=
  exists l t,
    s = l ++ r ++ t
    /\ Forall (fun c => In c chars) l
    /\ Forall (fun c => In c chars) t
    /\ (forall c u, r = c :: u -> ~ In c chars)
    /\ (forall u c, r = u ++ [c] -> ~ In c chars).

(** The last [n] entries of a sequence. *)
Definition last_n (A : Type) (n : nat) (l : list A) : list A :=
  skipn (length l - n) l.

(** [l] only grew: what was there is still there, in place. *)
Definition grew (A : Type) (before after : list A) : Prop :=
  exists added, after = before ++ added.

(** The text after the first occurrence of [p] in [s], when there is one. *)
Definition after_first (p s : str) : option str :=
  match Py.split_once p s with
  | Some (_, b) => Some b
  | None => None
  end.

(** Modelled from the spec: [WorldModel.update_hardware_state(component,
    value)], which world_model.py does not define.  Section 4.1 of the
    specification makes it an overwrite of the entry stored for the
    component; the entry is kept in the [state] map.  The other calls are
    those of world_model.py. *)
Definition update_hardware_state (component value : str) : Eff WorldModel.t unit :=
  modify (WorldModel.set_state component value).

Definition with_hardware_state : WorldModelLike WorldModel.t := {|
  wm_add_fact := @wm_add_fact _ WorldModel_calls;
  wm_update_hardware_event := @wm_update_hardware_event _ WorldModel_calls;
  wm_update_hardware_state := update_hardware_state;
  wm_update_user_preference := @wm_update_user_preference _ WorldModel_calls;
  wm_set_state := @wm_set_state _ WorldModel_calls;
  wm_get_summary := @wm_get_summary _ WorldModel_calls
|}.

End Spec.

(** ** Fixed inputs used in the examples *)

Module Examples.
Import HardwareIntegration.

Definition handler0 : ChatHandlerWorld.t WorldModel.t :=
  ChatHandlerWorld.init (ChatHandlerWorld.mk_config None None) WorldModel.init.

Definition monitor0 : HardwareIntegration.t WorldModel.t :=
  HardwareIntegration.init WorldModel.init.

(** The readings [False, False, True, True, False] of one pin: the first
    one is the read made before the loop, the other four are the passes.
    The other pin stays at [other]. *)
Definition button_levels (other : bool) : list (bool * bool) :=
  [(false, other); (true, other); (true, other); (false, other)].


(** A handler configured with [MAX_CONVERSATION_HISTORY = 0]. *)
Definition handler_zero : ChatHandlerWorld.t WorldModel.t :=
  ChatHandlerWorld.init (ChatHandlerWorld.mk_config None (Some 0)) WorldModel.init.

(** A reply that says "you prefer" twice. *)
Definition reply_two_preferences : str :=
  "You prefer tea, but you prefer coffee more.".

(** A collaborator that always answers [text], and one that always fails. *)
Definition api_answers (text : str) : ChatHandlerWorld.api_call :=
  fun _ _ => Ok text.

Definition api_fails (e : exn) : ChatHandlerWorld.api_call :=
  fun _ _ => Raise e.

(** A world model whose [add_fact] is broken; every other call is the one
    of world_model.py. *)
Definition broken_add_fact : WorldModelLike WorldModel.t := {|
  wm_add_fact := fun _ => raise (ExternalError "add_fact failed");
  wm_update_hardware_event := @wm_update_hardware_event _ WorldModel_calls;
  wm_update_hardware_state := @wm_update_hardware_state _ WorldModel_calls;
  wm_update_user_preference := @wm_update_user_preference _ WorldModel_calls;
  wm_set_state := @wm_set_state _ WorldModel_calls;
  wm_get_summary := @wm_get_summary _ WorldModel_calls
|}.

End Examples.

(** ** src/speech/speech_handler.py *)

Module SpeechRecognizer.

(** [listen()]: [recognized] is the outcome of recording from the
    microphone and of [recognize_google]; every exception gives [None]. *)
Definition listen (recognized : result str) : option str :=
  match recognized with
  | Ok text => Some (Py.lower text)
  | Raise _ => None
  end.

(** [detect_wake_word(wake_word)]: the recognized text is lower-cased
    before the wake word is looked for; every exception gives [False]. *)
Definition detect_wake_word (recognized : result str) (wake_word : str) : bool :=
  match recognized with
  | Ok text => Py.contains wake_word (Py.lower text)
  | Raise _ => false
  end.

End SpeechRecognizer.

(** ** config.py

    [F] stands for Python's floats, [f_volume], [f_phrase_timeout] and
    [f_temperature] for the literals 0.8, 1.5 and 0.7; [int_of] and
    [float_of] are the builtins [int] and [float] on a [str], [None] being
    their [ValueError].  The environment is the one left by
    [load_dotenv()]: [getenv name] is [os.getenv(name)]. *)

Module Config.

Section Settings.
Variable F : Type.
Variables f_volume f_phrase_timeout f_temperature : F.
Variable int_of : str -> option Z.
Variable float_of : str -> option F.

Inductive value :=
| VStr (s : str)
| VInt (n : Z)
| VFloat (x : F).

Definition settings : Type := list (str * value).

Fixpoint get (k : str) (d : settings) : option value :=
  match d with
  | [] => None
  | (k', v) :: r => if Py.str_eqb k' k then Some v else get k r
  end.

(** [d[k] = v]. *)
Fixpoint set (k : str) (v : value) (d : settings) : settings :=
  match d with
  | [] => [(k, v)]
  | (k', v') :: r =>
      if Py.str_eqb k' k then (k', v) :: r else (k', v') :: set k v r
  end.

Definition DEFAULT_SETTINGS : settings :=
  [ ("TTS_VOICE_ID", VStr "en-US-1");
    ("TTS_RATE", VInt 150);
    ("TTS_VOLUME", VFloat f_volume);
    ("STT_LANGUAGE", VStr "en-US");
    ("STT_TIMEOUT", VInt 5);
    ("STT_PHRASE_TIMEOUT", VFloat f_phrase_timeout);
    ("OPENAI_MODEL", VStr "gpt-3.5-turbo");
    ("OPENAI_MAX_TOKENS", VInt 150);
    ("OPENAI_TEMPERATURE", VFloat f_temperature);
    ("LED_PIN", VInt 18);
    ("BUTTON_PIN", VInt 23);
    ("MOTION_SENSOR_PIN", VInt 24);
    ("SERVO_PIN", VInt 25) ].

Definition required_vars : list str := ["OPENAI_API_KEY"].

(** [optional_vars]: every environment variable goes to the key of the
    same name. *)
Definition optional_vars : list (str * str) :=
  map (fun name => (name, name))
      ["TTS_VOICE_ID"; "TTS_RATE"; "TTS_VOLUME"; "STT_LANGUAGE"; "OPENAI_MODEL";
       "MQTT_BROKER"; "MQTT_PORT"; "MQTT_USERNAME"; "MQTT_PASSWORD"].

(** The first loop: a required variable that is set is stored, one that is
    not is listed as missing. *)
Fixpoint load_required (getenv : str -> option str) (vars : list str)
  (config : settings) (missing_vars : list str) : settings * list str :=
  match vars with
  | [] => (config, missing_vars)
  | var :: rest =>
      match getenv var with
      | None => load_required getenv rest config (missing_vars ++ [var])
      | Some value => load_required getenv rest (set var (VStr value) config) missing_vars
      end
  end.

(** The conversion of the text of an optional variable to the type of the
    value the key has now; [None] is the [continue] after a [ValueError]. *)
Definition convert (current : option value) (text : str) : option value :=
  match current with
  | Some (VInt _) => option_map VInt (int_of text)
  | Some (VFloat _) => option_map VFloat (float_of text)
  | Some (VStr _) | None => Some (VStr text)
  end.

(** One pass of the second loop. *)
Definition load_optional (getenv : str -> option str) (config : settings)
  (var : str * str) : settings :=
  let (env_var, config_key) := var in
  match getenv env_var with
  | None => config
  | Some text =>
      match convert (get config_key config) text with
      | Some v => set config_key v config
      | None => config
      end
  end.

Definition load_config (getenv : str -> option str) : result settings :=
  let (config, missing_vars) := load_required getenv required_vars DEFAULT_SETTINGS [] in
  match missing_vars with
  | _ :: _ => Raise ValueError
  | [] => Ok (fold_left (load_optional getenv) optional_vars config)
  end.

End Settings.

Arguments VStr {F} s.
Arguments VInt {F} n.
Arguments VFloat {F} x.

End Config.

(** ** src/main.py: one interaction of the assistant

    The assistant and its chat handler hold the same world model object,
    so [self.world_model] is the world model of the handler.  Speaking
    never raises ([TextToSpeech.speak] catches everything) and is dropped.
    [gpio_on] and [gpio_off] are the outcomes of [_set_led(True)] and
    [_set_led(False)], an [ImportError] of RPi.GPIO counting as success;
    [gpio_cleanup] is that of the GPIO clean-up made by [shutdown()]. *)

Module AIAssistant.
Import ChatHandlerWorld.

(** How [_handle_interaction] ends when it does not raise: it returns
    early without input, it reaches [sys.exit(0)] in [shutdown()], or it
    has spoken a response. *)
Inductive interaction :=
| NoInput
| Shutdown
| Responded (response : str).

Section Interaction.
Context {W : Type} `{WorldModelLike W}.

Definition _handle_interaction (gpio_on gpio_off gpio_cleanup : result unit)
  (heard : option str) (api : api_call) (t_user t_reply : str)
  : Eff (ChatHandlerWorld.t W) interaction :=
  lift_result gpio_on ;;
  match heard with
  | None | Some [] => lift_result gpio_off ;; ret NoInput
  | Some user_input =>
      on_world (wm_add_fact ("User said: " ++ user_input)) ;;
      if Py.contains "shutdown" (Py.lower user_input) then
        lift_result gpio_cleanup ;; ret Shutdown
      else
        context <- on_world wm_get_summary ;;
        response <- generate_response api t_user t_reply
                      ("Context:" ++ nl ++ context ++ nl ++ nl
                       ++ "User input: " ++ user_input) ;;
        on_world (wm_add_fact ("Assistant responded: " ++ response)) ;;
        lift_result gpio_off ;;
        ret (Responded response)
  end.

End Interaction.

(** Over a [WorldModel] of world_model.py: the handler once what was heard
    has been recorded, and the prompt the turn is then given. *)
Definition after_hearing (user_input : str) (h : ChatHandlerWorld.t WorldModel.t)
  : ChatHandlerWorld.t WorldModel.t :=
  set_world_model
    (WorldModel.add_fact ("User said: " ++ user_input) (world_model h)) h.

Definition turn_prompt (user_input : str) (h : ChatHandlerWorld.t WorldModel.t) : str :=
  "Context:" ++ nl ++ WorldModel.get_summary (world_model (after_hearing user_input h))
  ++ nl ++ nl ++ "User input: " ++ user_input.

End AIAssistant.

(** ** More fixed inputs *)

Module MoreExamples.

(** A callback that writes a fact and then raises. *)
Definition failing_callback : HardwareIntegration.callback (W := WorldModel.t) :=
  fun w => (Raise (ExternalError "callback failed"),
            WorldModel.add_fact "callback ran" w).

Definition monitor_with_failing_callback : HardwareIntegration.t WorldModel.t :=
  HardwareIntegration.register_callback "button_press" failing_callback
    Examples.monitor0.

(** A world model whose [update_hardware_event] is broken; every other
    call is the one of world_model.py. *)
Definition broken_update_hardware_event : WorldModelLike WorldModel.t := {|
  wm_add_fact := @wm_add_fact _ WorldModel_calls;
  wm_update_hardware_event := fun _ => raise (ExternalError "event not recorded");
  wm_update_hardware_state := @wm_update_hardware_state _ WorldModel_calls;
  wm_update_user_preference := @wm_update_user_preference _ WorldModel_calls;
  wm_set_state := @wm_set_state _ WorldModel_calls;
  wm_get_summary := @wm_get_summary _ WorldModel_calls
|}.

(** An environment with only the API key set, and one that also sets a
    speech rate that is not a number. *)
Definition env_with_key : str -> option str :=
  fun name => if Py.str_eqb name "OPENAI_API_KEY" then Some "sk-test" else None.

Definition env_with_bad_rate : str -> option str :=
  fun name =>
    if Py.str_eqb name "OPENAI_API_KEY" then Some "sk-test"
    else if Py.str_eqb name "TTS_RATE" then Some "fast"
    else None.

(** Stand-ins for [int] and [float] in the examples: nothing converts. *)
Definition no_int : str -> option Z := fun _ => None.
Definition no_float : str -> option unit := fun _ => None.

End MoreExamples.

(** * Properties *)

Unset Implicit Arguments.

(** ** Strings *)

Section StringFacts.
Import Py.

(** The string operations on a few texts, as Python evaluates them. *)
Example split_commas : split_nonempty "," "a,b,,c" = ["a"; "b"; ""; "c"].
Proof. reflexivity. Qed.

Example split_overlapping : split_nonempty "aXa" "aXaXa" = [""; "Xa"].
Proof. reflexivity. Qed.

Example split_absent : split_nonempty "you prefer" "hello" = ["hello"].
Proof. reflexivity. Qed.

Example strip_periods_and_spaces : strip ". " " . the sky. is blue .. " = "the sky. is blue".
Proof. reflexivity. Qed.

Example lower_mixed : lower "You PREFER Tea" = "you prefer tea".
Proof. reflexivity. Qed.

Example slices :
  slice_from (-2) [1; 2; 3] = [2; 3]
  /\ slice_from (-5) [1; 2; 3] = [1; 2; 3]
  /\ slice_from (-0) [1; 2; 3] = [1; 2; 3]
  /\ slice_from 2 [1; 2; 3] = [3].
Proof. repeat split. Qed.

Example summary_of_new_world_model :
  WorldModel.get_summary WorldModel.init
  = "No known facts yet." ++ nl ++ "No hardware events recorded." ++ nl
    ++ "No internal state set yet." ++ nl ++ "No user preferences stored.".
Proof. reflexivity. Qed.

Example summary_of_filled_world_model :
  WorldModel.get_summary
    (WorldModel.mk [("mode", "demo")] ["a"; "b"] [("user_preference", "dark mode")]
                   ["Hardware event: button_press"])
  = "Facts: a; b" ++ nl ++ "Hardware Events: Hardware event: button_press" ++ nl
    ++ "State keys: ['mode']" ++ nl
    ++ "User Preferences: {'user_preference': 'dark mode'}".
Proof. reflexivity. Qed.

Lemma chr_eqb_eq (a b : ascii) : chr_eqb a b = true <-> a = b.
Proof. apply Ascii.eqb_eq. Qed.

Lemma chr_eqb_refl (a : ascii) : chr_eqb a a = true.
Proof. apply Ascii.eqb_refl. Qed.

Lemma str_eqb_eq (a b : str) : str_eqb a b = true <-> a = b.
Proof.
  revert b; induction a as [|x a IH]; intros [|y b]; simpl; split;
    try congruence; try reflexivity.
  - rewrite andb_true_iff, chr_eqb_eq, IH. intros [-> ->]; reflexivity.
  - intros E; injection E as -> ->.
    rewrite chr_eqb_refl. simpl. apply IH; reflexivity.
Qed.

Lemma startswith_iff (p s : str) :
  startswith p s = true <-> exists t, s = p ++ t.
Proof.
  revert s; induction p as [|x p IH]; intros s; simpl.
  - split; [intros _; exists s; reflexivity | reflexivity].
  - destruct s as [|y s].
    + split; [discriminate | intros [t E]; discriminate].
    + rewrite andb_true_iff, chr_eqb_eq, IH. split.
      * intros [-> [t ->]]. exists t; reflexivity.
      * intros [t E]. injection E as -> ->. split; [reflexivity | exists t; reflexivity].
Qed.

Lemma startswith_app (p t : str) : startswith p (p ++ t) = true.
Proof. apply startswith_iff. exists t; reflexivity. Qed.

Lemma skipn_length_app (p t : str) : skipn (length p) (p ++ t) = t.
Proof. induction p; simpl; auto. Qed.

Lemma contains_iff (p s : str) :
  contains p s = true <-> exists a b, Spec.occurrence p s a b.
Proof.
  unfold Spec.occurrence.
  induction s as [|c s IH].
  - simpl. rewrite orb_false_r, startswith_iff. split.
    + intros [t E]. exists [], t. exact E.
    + intros [a [b E]]. destruct a; simpl in E.
      * exists b; exact E.
      * discriminate.
  - cbn [contains]. rewrite orb_true_iff, startswith_iff, IH. split.
    + intros [[t E] | [a [b E]]].
      * exists [], t. exact E.
      * exists (c :: a), b. simpl. rewrite E. reflexivity.
    + intros [a [b E]]. destruct a as [|x a]; simpl in E.
      * left. exists b. exact E.
      * right. injection E as -> E. exists a, b. exact E.
Qed.

Lemma contains_false (p s a b : str) :
  contains p s = false -> s <> a ++ p ++ b.
Proof.
  intros Hc E. assert (contains p s = true) by (apply contains_iff; exists a, b; exact E).
  congruence.
Qed.

(** [split_once] finds the first occurrence, and finds one whenever the
    separator occurs. *)
Lemma split_once_Some (sep s a b : str) :
  split_once sep s = Some (a, b) -> Spec.first_occurrence sep s a b.
Proof.
  unfold Spec.first_occurrence, Spec.occurrence.
  revert a b; induction s as [|c s IH]; intros a b.
  - simpl. destruct (startswith sep []) eqn:Hs; [|discriminate].
    intros E; injection E as <- <-.
    apply startswith_iff in Hs. destruct Hs as [t E].
    destruct sep; [|discriminate]. simpl. split; [reflexivity | intros; simpl; lia].
  - cbn [split_once]. destruct (startswith sep (c :: s)) eqn:Hs.
    + intros E; injection E as <- <-.
      apply startswith_iff in Hs. destruct Hs as [t E]. rewrite E.
      rewrite skipn_length_app. split; [reflexivity | intros; simpl; lia].
    + destruct (split_once sep s) as [[a0 b0]|] eqn:Ho; [|discriminate].
      intros E; injection E as <- <-.
      destruct (IH a0 b0 eq_refl) as [E Hmin]. split.
      * simpl. rewrite E. reflexivity.
      * intros a' b' E'. destruct a' as [|x a']; simpl in E'.
        -- exfalso. assert (startswith sep (c :: s) = true)
             by (apply startswith_iff; exists b'; exact E').
           congruence.
        -- injection E' as -> E'. simpl. apply le_n_S. eapply Hmin. exact E'.
Qed.

Lemma split_once_None (sep s : str) :
  split_once sep s = None <-> contains sep s = false.
Proof.
  induction s as [|c s IH].
  - simpl. destruct (startswith sep []); simpl; split; congruence.
  - cbn [split_once contains]. destruct (startswith sep (c :: s)); simpl.
    + split; congruence.
    + rewrite <- IH. destruct (split_once sep s) as [[? ?]|]; split; congruence.
Qed.

Lemma split_once_contains (sep s : str) :
  contains sep s = true -> exists a b, split_once sep s = Some (a, b).
Proof.
  intros Hc. destruct (split_once sep s) as [[a b]|] eqn:E.
  - exists a, b; reflexivity.
  - apply split_once_None in E. congruence.
Qed.

(** The first and the last occurrence are determined by the text. *)
Lemma occurrence_same_start (p s a b a' b' : str) :
  Spec.occurrence p s a b -> Spec.occurrence p s a' b' ->
  length a = length a' -> a = a' /\ b = b'.
Proof.
  unfold Spec.occurrence. intros E E' Hl. rewrite E in E'. clear E.
  revert a' E' Hl. induction a as [|x a IH]; intros [|y a'] E' Hl;
    try discriminate Hl.
  - split; [reflexivity|]. exact (app_inv_head p b b' E').
  - injection E' as -> E'. injection Hl as Hl.
    destruct (IH a' E' Hl) as [-> ->]. split; reflexivity.
Qed.

Lemma first_occurrence_unique (p s a b a' b' : str) :
  Spec.first_occurrence p s a b -> Spec.first_occurrence p s a' b' ->
  a = a' /\ b = b'.
Proof.
  intros [E H] [E' H']. apply (occurrence_same_start p s); try assumption.
  apply Nat.le_antisymm; [apply (H a' b' E') | apply (H' a b E)].
Qed.

Lemma last_occurrence_unique (p s a b a' b' : str) :
  Spec.last_occurrence p s a b -> Spec.last_occurrence p s a' b' ->
  a = a' /\ b = b'.
Proof.
  intros [E H] [E' H']. apply (occurrence_same_start p s); try assumption.
  apply Nat.le_antisymm; [apply (H' a b E) | apply (H a' b' E')].
Qed.

Lemma split_once_shorter (sep s a b : str) :
  sep <> [] -> split_once sep s = Some (a, b) -> (length b < length s)%nat.
Proof.
  intros Hne Ho. apply split_once_Some in Ho. destruct Ho as [E _].
  unfold Spec.occurrence in E. rewrite E, !length_app.
  destruct sep; [congruence | simpl; lia].
Qed.

Lemma split_once_nil (sep : str) : sep <> [] -> split_once sep [] = None.
Proof. destruct sep; [congruence | reflexivity]. Qed.

(** The fuel [length s] of [split_nonempty] is never used up: more fuel
    gives the same pieces. *)
Lemma split_fuel_enough (sep : str) :
  sep <> [] ->
  forall n m s, (length s <= n)%nat -> (length s <= m)%nat ->
    split_fuel n sep s = split_fuel m sep s.
Proof.
  intros Hne. induction n as [|n IH]; intros m s Hn Hm.
  - destruct s; [|simpl in Hn; lia].
    destruct m; cbn [split_fuel]; [reflexivity|].
    rewrite split_once_nil by assumption. reflexivity.
  - destruct m as [|m].
    + destruct s; [|simpl in Hm; lia].
      cbn [split_fuel]. rewrite split_once_nil by assumption. reflexivity.
    + cbn [split_fuel]. destruct (split_once sep s) as [[a b]|] eqn:Ho; [|reflexivity].
      pose proof (split_once_shorter sep s a b Hne Ho). f_equal. apply IH; lia.
Qed.

Lemma split_fuel_not_nil (n : nat) (sep s : str) : split_fuel n sep s <> [].
Proof.
  destruct n; cbn [split_fuel]; [discriminate|].
  destruct (split_once sep s) as [[? ?]|]; discriminate.
Qed.

(** The pieces of a text in which the separator occurs: the text before
    the first occurrence, then the pieces of the text after it. *)
Lemma split_nonempty_cons (sep s a b : str) :
  sep <> [] -> split_once sep s = Some (a, b) ->
  split_nonempty sep s = a :: split_nonempty sep b.
Proof.
  intros Hne Ho. unfold split_nonempty.
  pose proof (split_once_shorter sep s a b Hne Ho) as Hlt.
  destruct (length s) as [|n] eqn:El; [lia|].
  cbn [split_fuel]. rewrite Ho. f_equal. apply split_fuel_enough; [assumption | lia | lia].
Qed.

Lemma split_nonempty_single (sep s : str) :
  split_once sep s = None -> split_nonempty sep s = [s].
Proof.
  intros Ho. unfold split_nonempty.
  destruct (length s); cbn [split_fuel]; [reflexivity|].
  rewrite Ho. reflexivity.
Qed.

(** A separator whose first character does not come back in it cannot
    overlap itself. *)
Lemma no_overlap_tail (c : ascii) (r a b z : str) :
  ~ In c r -> r ++ b = a ++ c :: z -> exists m, a = r ++ m.
Proof.
  intros Hnin. revert a. induction r as [|x r IH]; intros a E.
  - exists a; reflexivity.
  - destruct a as [|y a]; simpl in E.
    + injection E as -> _. exfalso. apply Hnin. left; reflexivity.
    + injection E as -> E. destruct (IH (fun H => Hnin (or_intror H)) a E) as [m ->].
      exists m; reflexivity.
Qed.

Lemma no_overlap (c : ascii) (r a b a' b' : str) :
  ~ In c r ->
  a ++ (c :: r) ++ b = a' ++ (c :: r) ++ b' ->
  (length a < length a')%nat ->
  exists m, a' = a ++ (c :: r) ++ m.
Proof.
  intros Hnin. revert a'. induction a as [|x a IH]; intros a' E Hlt.
  - destruct a' as [|y a']; [simpl in Hlt; lia|].
    simpl in E. injection E as <- E.
    destruct (no_overlap_tail c r a' b (r ++ b') Hnin E) as [m ->].
    exists m; reflexivity.
  - destruct a' as [|y a']; [simpl in Hlt; lia|].
    simpl in E. injection E as <- E. simpl in Hlt.
    destruct (IH a' E ltac:(lia)) as [m ->].
    exists m; reflexivity.
Qed.

Lemma last_cons_not_nil (A : Type) (x d : A) (l : list A) :
  l <> [] -> last (x :: l) d = last l d.
Proof. destruct l; [congruence | reflexivity]. Qed.

(** For such a separator the last piece of [split] is the text after the
    last occurrence. *)
Lemma split_last_piece (c : ascii) (r : str) :
  ~ In c r ->
  forall n s, (length s <= n)%nat -> contains (c :: r) s = true ->
    exists a b, Spec.last_occurrence (c :: r) s a b
                /\ last (split_nonempty (c :: r) s) [] = b.
Proof.
  intros Hnin. set (sep := c :: r).
  assert (Hne : sep <> []) by discriminate.
  induction n as [|n IH]; intros s Hlen Hc.
  - destruct s; [|simpl in Hlen; lia]. discriminate Hc.
  - destruct (split_once_contains sep s Hc) as [a [b Ho]].
    pose proof (split_once_shorter sep s a b Hne Ho) as Hlt.
    rewrite (split_nonempty_cons sep s a b Hne Ho).
    rewrite last_cons_not_nil by apply split_fuel_not_nil.
    destruct (split_once_Some sep s a b Ho) as [E Hfirst]. unfold Spec.occurrence in E.
    destruct (contains sep b) eqn:Hcb.
    + destruct (IH b ltac:(lia) Hcb) as [a1 [b1 [[E1 Hlast1] Hl]]].
      unfold Spec.occurrence in E1.
      exists (a ++ sep ++ a1), b1. split; [split|exact Hl].
      * unfold Spec.occurrence. rewrite E, E1, <- !app_assoc. reflexivity.
      * intros a' b' E'. unfold Spec.occurrence in E'.
        rewrite !length_app.
        destruct (Nat.le_gt_cases (length a') (length a)) as [Hle|Hgt]; [lia|].
        rewrite E in E'. destruct (no_overlap c r a b a' b' Hnin E' Hgt) as [m ->].
        rewrite <- !app_assoc in E'. apply app_inv_head in E'.
        change ((c :: r) ++ b) with (sep ++ b) in E'.
        change ((c :: r) ++ m ++ (c :: r) ++ b') with (sep ++ m ++ sep ++ b') in E'.
        apply app_inv_head in E'.
        specialize (Hlast1 m b' E'). rewrite !length_app. fold sep. lia.
    + rewrite (split_nonempty_single sep b) by (apply split_once_None; exact Hcb).
      exists a, b. split; [split|reflexivity].
      * exact E.
      * intros a' b' E'. unfold Spec.occurrence in E'.
        destruct (Nat.le_gt_cases (length a') (length a)) as [Hle|Hgt]; [lia|].
        exfalso. rewrite E in E'.
        destruct (no_overlap c r a b a' b' Hnin E' Hgt) as [m ->].
        rewrite <- !app_assoc in E'. apply app_inv_head in E'.
        change ((c :: r) ++ b) with (sep ++ b) in E'.
        change ((c :: r) ++ m ++ (c :: r) ++ b') with (sep ++ m ++ sep ++ b') in E'.
        apply app_inv_head in E'.
        exact (contains_false sep b m b' Hcb E').
Qed.


(** The second piece of [split], when the separator occurs: the text
    between the first occurrence and the next one, or up to the end. *)
Lemma split_second_piece (sep s a b : str) :
  sep <> [] -> split_once sep s = Some (a, b) ->
  exists rest,
    split_nonempty sep s =
      a :: match split_once sep b with Some (m, _) => m | None => b end :: rest.
Proof.
  intros Hne Ho. rewrite (split_nonempty_cons sep s a b Hne Ho).
  destruct (split_once sep b) as [[m b2]|] eqn:Ho2.
  - rewrite (split_nonempty_cons sep b m b2 Hne Ho2). eexists; reflexivity.
  - rewrite (split_nonempty_single sep b Ho2). exists []; reflexivity.
Qed.

(** [strip] takes characters of [chars] off both ends, and nothing else. *)
Lemma lstrip_spec (chars s : str) :
  exists l, s = l ++ lstrip chars s
            /\ Forall (fun c => chr_in c chars = true) l
            /\ (forall c t, lstrip chars s = c :: t -> chr_in c chars = false).
Proof.
  induction s as [|x s [l [E [Hl Hh]]]]; simpl.
  - exists []. split; [reflexivity|]. split; [constructor | discriminate].
  - destruct (chr_in x chars) eqn:Hx.
    + exists (x :: l). split; [simpl; f_equal; exact E|].
      split; [constructor; assumption | exact Hh].
    + exists []. split; [reflexivity|]. split; [constructor|].
      intros c t Ec. injection Ec as <- _. exact Hx.
Qed.

Lemma strip_spec (chars s : str) :
  exists l t, s = l ++ strip chars s ++ t
              /\ Forall (fun c => chr_in c chars = true) l
              /\ Forall (fun c => chr_in c chars = true) t
              /\ (forall c u, strip chars s = c :: u -> chr_in c chars = false)
              /\ (forall u c, strip chars s = u ++ [c] -> chr_in c chars = false).
Proof.
  unfold strip, rstrip.
  destruct (lstrip_spec chars s) as [l [E [Hl Hh]]].
  destruct (lstrip_spec chars (rev (lstrip chars s))) as [t [E2 [Ht Hh2]]].
  set (m := lstrip chars s) in *.
  set (k := lstrip chars (rev m)) in *.
  assert (Em : m = rev k ++ rev t).
  { rewrite <- (rev_involutive m), E2, rev_app_distr. reflexivity. }
  exists l, (rev t). repeat split.
  - rewrite E at 1. rewrite Em. reflexivity.
  - exact Hl.
  - apply Forall_rev. exact Ht.
  - intros c u Ec. destruct (rev k) as [|y w] eqn:Ek; [discriminate|].
    injection Ec as -> ->. apply (Hh c (u ++ rev t)). rewrite Em. reflexivity.
  - intros u c Ec. apply (Hh2 c (rev u)).
    rewrite <- (rev_involutive k), Ec, rev_app_distr. reflexivity.
Qed.

(** [strip] against the words of the specification: the stripped text is
    the result of [strip], and nothing else is. *)
Lemma In_chr_in (c : ascii) (chars : str) : In c chars <-> chr_in c chars = true.
Proof.
  unfold chr_in. rewrite existsb_exists. split.
  - intros H. exists c. split; [exact H | apply chr_eqb_refl].
  - intros [x [Hx E]]. apply chr_eqb_eq in E. subst x. exact Hx.
Qed.

Lemma not_In_chr_in (c : ascii) (chars : str) : ~ In c chars <-> chr_in c chars = false.
Proof.
  rewrite In_chr_in. destruct (chr_in c chars); split; congruence.
Qed.

Lemma strip_stripped (chars s : str) : Spec.stripped chars s (strip chars s).
Proof.
  destruct (strip_spec chars s) as [l [t [E [Hl [Ht [Hh Hl']]]]]].
  exists l, t. split; [exact E|]. split; [|split; [|split]].
  - apply (Forall_impl _ (fun c H => proj2 (In_chr_in c chars) H) Hl).
  - apply (Forall_impl _ (fun c H => proj2 (In_chr_in c chars) H) Ht).
  - intros c u Ec. apply not_In_chr_in. apply (Hh c u Ec).
  - intros u c Ec. apply not_In_chr_in. apply (Hl' u c Ec).
Qed.

Lemma lstrip_all (chars s : str) :
  Forall (fun c => chr_in c chars = true) s -> lstrip chars s = [].
Proof.
  induction 1 as [|c s Hc _ IH]; simpl; [reflexivity|]. rewrite Hc. exact IH.
Qed.

Lemma strip_all (chars s : str) :
  Forall (fun c => chr_in c chars = true) s -> strip chars s = [].
Proof.
  intros H. unfold strip, rstrip. rewrite (lstrip_all chars s H). reflexivity.
Qed.

Lemma lstrip_app (chars l : str) (c : ascii) (u : str) :
  Forall (fun x => In x chars) l -> ~ In c chars ->
  lstrip chars (l ++ c :: u) = c :: u.
Proof.
  intros Hl Hc. induction Hl as [|x l Hx _ IH]; simpl.
  - apply not_In_chr_in in Hc. rewrite Hc. reflexivity.
  - apply In_chr_in in Hx. rewrite Hx. exact IH.
Qed.

Lemma stripped_strip (chars s r : str) :
  Spec.stripped chars s r -> r = strip chars s.
Proof.
  intros [l [t [E [Hl [Ht [Hh Hl']]]]]]. subst s.
  destruct r as [|c u].
  - symmetry. apply strip_all. simpl. apply Forall_app. split.
    + apply (Forall_impl _ (fun c H => proj1 (In_chr_in c chars) H) Hl).
    + apply (Forall_impl _ (fun c H => proj1 (In_chr_in c chars) H) Ht).
  - unfold strip, rstrip.
    change (l ++ (c :: u) ++ t) with (l ++ c :: (u ++ t)).
    rewrite (lstrip_app chars l c (u ++ t) Hl (Hh c u eq_refl)).
    change (c :: u ++ t) with ((c :: u) ++ t).
    destruct (exists_last (l := c :: u) ltac:(discriminate)) as [v [d Ev]].
    rewrite Ev in *. rewrite !rev_app_distr. simpl.
    rewrite (lstrip_app chars (rev t) d (rev v) (Forall_rev Ht) (Hl' v d eq_refl)).
    simpl. rewrite rev_involutive. reflexivity.
Qed.

(** [lower] against the table of capital and small letters. *)
Lemma lower_letter_iff (c l : ascii) : Spec.lower_letter c l <-> l = lower_chr c.
Proof.
  unfold Spec.lower_letter. split.
  - intros [H | [H ->]].
    + vm_compute in H.
      repeat (destruct H as [H | H]; [injection H as <- <-; reflexivity|]).
      destruct H.
    + destruct c as [[|] [|] [|] [|] [|] [|] [|] [|]];
        first [reflexivity | exfalso; apply H; apply In_chr_in; reflexivity].
  - intros ->.
    destruct c as [[|] [|] [|] [|] [|] [|] [|] [|]];
      first [ right; split; [apply not_In_chr_in; reflexivity | reflexivity]
            | left; vm_compute; repeat (first [left; reflexivity | right]) ].
Qed.

Lemma lower_cased_iff (s low : str) : Spec.lower_cased s low <-> low = lower s.
Proof.
  unfold Spec.lower_cased, lower. split.
  - induction 1 as [|c l s low Hc _ IH]; simpl; [reflexivity|].
    apply lower_letter_iff in Hc. subst l low. reflexivity.
  - intros ->. induction s as [|c s IH]; simpl; constructor.
    + apply lower_letter_iff. reflexivity.
    + exact IH.
Qed.

(** A keyword is in the lower-cased reply exactly when it is mentioned with
    some casing. *)
Lemma contains_lower_iff (keyword reply : str) :
  contains keyword (lower reply) = true <-> Spec.mentioned keyword reply.
Proof.
  unfold Spec.mentioned, lower. rewrite contains_iff. unfold Spec.occurrence. split.
  - intros [a [b E]].
    apply map_eq_app in E. destruct E as [a0 [r0 [-> [Ea E]]]].
    apply map_eq_app in E. destruct E as [w [b0 [-> [Ew Eb]]]].
    exists a0, w, b0. split; [reflexivity | apply lower_cased_iff; symmetry; exact Ew].
  - intros [a [w [b [-> Hw]]]]. apply lower_cased_iff in Hw. subst keyword.
    exists (map lower_chr a), (map lower_chr b).
    rewrite !map_app. reflexivity.
Qed.

End StringFacts.

(** ** Indexing and dictionaries *)

Section DataFacts.
Import PyData.

Lemma getitem_last (A : Type) (l : list A) (d : A) :
  l <> [] -> getitem l (-1) = Ok (last l d).
Proof.
  intros Hne. destruct (exists_last Hne) as [l' [x ->]].
  unfold getitem. rewrite length_app, last_last. simpl length.
  replace (-1 <? 0) with true by reflexivity. cbv zeta.
  replace (-1 + Z.of_nat (length l' + 1)) with (Z.of_nat (length l')) by lia.
  destruct (Z.of_nat (length l') <? 0) eqn:E1; [apply Z.ltb_lt in E1; lia|].
  destruct (Z.of_nat (length l' + 1) <=? Z.of_nat (length l')) eqn:E2;
    [apply Z.leb_le in E2; lia|].
  simpl. rewrite Nat2Z.id, nth_error_app2 by lia.
  rewrite Nat.sub_diag. reflexivity.
Qed.

Lemma getitem_second (A : Type) (x y : A) (l : list A) :
  getitem (x :: y :: l) 1 = Ok y.
Proof.
  unfold getitem. simpl length. replace (1 <? 0) with false by reflexivity.
  cbv zeta. destruct (Z.of_nat (S (S (length l))) <=? 1) eqn:E;
    [apply Z.leb_le in E; lia|].
  reflexivity.
Qed.

Lemma dict_get_set_same (k v : str) (d : dict) :
  dict_get k (dict_set k v d) = Some v.
Proof.
  induction d as [|[k' v'] d IH]; simpl.
  - replace (Py.str_eqb k k) with true by (symmetry; apply str_eqb_eq; reflexivity).
    reflexivity.
  - destruct (Py.str_eqb k' k) eqn:E; simpl; rewrite E; [reflexivity | exact IH].
Qed.

Lemma dict_get_set_other (k k' v : str) (d : dict) :
  k' <> k -> dict_get k' (dict_set k v d) = dict_get k' d.
Proof.
  intros Hne. induction d as [|[k0 v0] d IH]; simpl.
  - destruct (Py.str_eqb k k') eqn:E; [apply str_eqb_eq in E; congruence | reflexivity].
  - destruct (Py.str_eqb k0 k) eqn:E; simpl.
    + apply str_eqb_eq in E. subst k0.
      destruct (Py.str_eqb k k') eqn:E'; [apply str_eqb_eq in E'; congruence | reflexivity].
    + rewrite IH. reflexivity.
Qed.

(** Setting a key never duplicates it. *)
Lemma dict_set_keys (k v : str) (d : dict) :
  dict_keys (dict_set k v d) =
    if existsb (fun k' => Py.str_eqb k' k) (dict_keys d) then dict_keys d
    else dict_keys d ++ [k].
Proof.
  unfold dict_keys. induction d as [|[k0 v0] d IH]; simpl; [reflexivity|].
  destruct (Py.str_eqb k0 k) eqn:E; simpl; [reflexivity|].
  rewrite IH. destruct (existsb _ (map fst d)); reflexivity.
Qed.

End DataFacts.

(** ** Running effects *)

Section EffFacts.
Context {S : Type}.

Lemma bind_ok {A B} (m : Eff S A) (k : A -> Eff S B) (s s' : S) (a : A) :
  m s = (Ok a, s') -> bind m k s = k a s'.
Proof. unfold bind. intros ->. reflexivity. Qed.

Lemma bind_raise {A B} (m : Eff S A) (k : A -> Eff S B) (s s' : S) (e : exn) :
  m s = (Raise e, s') -> bind m k s = (Raise e, s').
Proof. unfold bind. intros ->. reflexivity. Qed.

Lemma try_except_ok {A} (m : Eff S A) (handler : exn -> Eff S A) (s s' : S) (a : A) :
  m s = (Ok a, s') -> try_except m handler s = (Ok a, s').
Proof. unfold try_except. intros ->. reflexivity. Qed.

Lemma try_except_raise {A} (m : Eff S A) (handler : exn -> Eff S A) (s s' : S) (e : exn) :
  m s = (Raise e, s') -> try_except m handler s = handler e s'.
Proof. unfold try_except. intros ->. reflexivity. Qed.

(** A handler that returns swallows every exception. *)
Lemma try_except_swallow (m : Eff S unit) (s : S) :
  fst (try_except m (fun _ => ret tt) s) = Ok tt.
Proof.
  unfold try_except. destruct (m s) as [[[]|e] s']; reflexivity.
Qed.

End EffFacts.

(** ** The calls on a [WorldModel] of world_model.py *)

Section WorldModelCalls.
Import WorldModel.

Lemma add_fact_run (fact : str) (w : WorldModel.t) :
  wm_add_fact fact w = (Ok tt, add_fact fact w).
Proof. reflexivity. Qed.

Lemma update_hardware_event_run (d : str) (w : WorldModel.t) :
  wm_update_hardware_event d w = (Ok tt, update_hardware_event d w).
Proof. reflexivity. Qed.

Lemma update_user_preference_run (k v : str) (w : WorldModel.t) :
  wm_update_user_preference k v w = (Ok tt, update_user_preference k v w).
Proof. reflexivity. Qed.

Lemma set_state_run (k v : str) (w : WorldModel.t) :
  wm_set_state k v w = (Ok tt, set_state k v w).
Proof. reflexivity. Qed.

Lemma get_summary_run (w : WorldModel.t) :
  wm_get_summary w = (Ok (get_summary w), w).
Proof. reflexivity. Qed.

Lemma update_hardware_state_run (c v : str) (w : WorldModel.t) :
  wm_update_hardware_state c v w = (Raise (AttributeError "update_hardware_state"), w).
Proof. reflexivity. Qed.

End WorldModelCalls.

(** ** Pattern extraction on a [WorldModel] of world_model.py *)

Section Extraction.
Import PyData ChatHandlerWorld.

Local Abbreviation handler := (ChatHandlerWorld.t WorldModel.t).

Lemma set_world_model_same (h : handler) : set_world_model (world_model h) h = h.
Proof. destruct h; reflexivity. Qed.

Lemma set_world_model_twice (w w' : WorldModel.t) (h : handler) :
  set_world_model w (set_world_model w' h) = set_world_model w h.
Proof. reflexivity. Qed.

Lemma keywords_run (text : str) (keywords : list str) (h : handler) :
  for_each keywords (fun keyword =>
     if Py.contains keyword text then
       on_world (wm_update_hardware_event ("Hardware interaction mentioned: " ++ keyword))
     else ret tt) h
  = (Ok tt,
     set_world_model
       (fold_left (fun w keyword =>
                     if Py.contains keyword text
                     then WorldModel.update_hardware_event (mention keyword) w else w)
                  keywords (world_model h)) h).
Proof.
  revert h. induction keywords as [|k ks IH]; intros h.
  - simpl. unfold ret. rewrite set_world_model_same. reflexivity.
  - cbn [for_each fold_left]. destruct (Py.contains k text).
    + erewrite bind_ok by reflexivity. rewrite IH. reflexivity.
    + erewrite bind_ok by reflexivity. rewrite IH. reflexivity.
Qed.

Lemma extraction_run (reply : str) (h : handler) :
  _update_world_model_from_response reply h
  = (Ok tt, set_world_model (extraction reply (world_model h)) h).
Proof.
  unfold _update_world_model_from_response, extraction_try, extraction.
  apply try_except_ok.
  (* the fact *)
  set (w1 := if Py.contains "I learned that" reply
             then WorldModel.add_fact (learned_fact reply) (world_model h)
             else world_model h).
  erewrite bind_ok with (s' := set_world_model w1 h) (a := tt).
  2:{ subst w1. destruct (Py.contains "I learned that" reply).
      - erewrite bind_ok by reflexivity.
        erewrite bind_ok.
        2:{ unfold lift_result.
            rewrite (getitem_last _ (Py.split_nonempty "I learned that" reply) [])
              by apply split_fuel_not_nil.
            reflexivity. }
        reflexivity.
      - unfold ret. rewrite set_world_model_same. reflexivity. }
  (* the preference *)
  set (w2 := if Py.contains "you prefer" (Py.lower reply)
             then WorldModel.update_user_preference "user_preference"
                    (preference_text reply) w1
             else w1).
  erewrite bind_ok with (s' := set_world_model w2 h) (a := tt).
  2:{ subst w2. destruct (Py.contains "you prefer" (Py.lower reply)) eqn:Hc.
      - erewrite bind_ok by reflexivity.
        destruct (split_once_contains _ _ Hc) as [a [b Ho]].
        destruct (split_second_piece "you prefer" (Py.lower reply) a b
                    ltac:(discriminate) Ho) as [rest Es].
        erewrite bind_ok.
        2:{ unfold lift_result. rewrite Es, getitem_second. reflexivity. }
        unfold preference_text. rewrite Es. reflexivity.
      - reflexivity. }
  rewrite keywords_run. reflexivity.
Qed.


Lemma keywords_fold (text : str) (keywords : list str) (w : WorldModel.t) :
  let w' := fold_left (fun w keyword =>
                         if Py.contains keyword text
                         then WorldModel.update_hardware_event (mention keyword) w else w)
                      keywords w in
  WorldModel.facts w' = WorldModel.facts w
  /\ WorldModel.user_preferences w' = WorldModel.user_preferences w
  /\ WorldModel.state w' = WorldModel.state w
  /\ WorldModel.hardware_events w' =
       WorldModel.hardware_events w
       ++ map mention (filter (fun keyword => Py.contains keyword text) keywords).
Proof.
  revert w. induction keywords as [|k ks IH]; intros w; cbn [fold_left filter].
  - cbn. rewrite app_nil_r. repeat split.
  - destruct (Py.contains k text).
    + destruct (IH (WorldModel.update_hardware_event (mention k) w)) as [F [P [S E]]].
      cbv zeta. rewrite F, P, S, E. cbn. rewrite <- app_assoc. repeat split.
    + apply IH.
Qed.

Lemma extraction_facts (reply : str) (w : WorldModel.t) :
  WorldModel.facts (extraction reply w) =
    if Py.contains "I learned that" reply
    then WorldModel.facts w ++ [learned_fact reply] else WorldModel.facts w.
Proof.
  unfold extraction. cbv zeta.
  match goal with |- context [fold_left ?f ?l ?w0] =>
    destruct (keywords_fold (Py.lower reply) l w0) as [F _] end.
  cbv zeta in F. rewrite F.
  destruct (Py.contains "you prefer" (Py.lower reply));
    destruct (Py.contains "I learned that" reply); reflexivity.
Qed.

Lemma extraction_user_preferences (reply : str) (w : WorldModel.t) :
  WorldModel.user_preferences (extraction reply w) =
    if Py.contains "you prefer" (Py.lower reply)
    then dict_set "user_preference" (preference_text reply) (WorldModel.user_preferences w)
    else WorldModel.user_preferences w.
Proof.
  unfold extraction. cbv zeta.
  match goal with |- context [fold_left ?f ?l ?w0] =>
    destruct (keywords_fold (Py.lower reply) l w0) as [_ [P _]] end.
  cbv zeta in P. rewrite P.
  destruct (Py.contains "you prefer" (Py.lower reply));
    destruct (Py.contains "I learned that" reply); reflexivity.
Qed.

Lemma extraction_hardware_events (reply : str) (w : WorldModel.t) :
  WorldModel.hardware_events (extraction reply w) =
    WorldModel.hardware_events w
    ++ map mention (filter (fun keyword => Py.contains keyword (Py.lower reply))
                           hardware_keywords).
Proof.
  unfold extraction. cbv zeta.
  match goal with |- context [fold_left ?f ?l ?w0] =>
    destruct (keywords_fold (Py.lower reply) l w0) as [_ [_ [_ E]]] end.
  cbv zeta in E. rewrite E.
  destruct (Py.contains "you prefer" (Py.lower reply));
    destruct (Py.contains "I learned that" reply); reflexivity.
Qed.

Lemma extraction_state (reply : str) (w : WorldModel.t) :
  WorldModel.state (extraction reply w) = WorldModel.state w.
Proof.
  unfold extraction. cbv zeta.
  match goal with |- context [fold_left ?f ?l ?w0] =>
    destruct (keywords_fold (Py.lower reply) l w0) as [_ [_ [S _]]] end.
  cbv zeta in S. rewrite S.
  destruct (Py.contains "you prefer" (Py.lower reply));
    destruct (Py.contains "I learned that" reply); reflexivity.
Qed.

Lemma learned_separator : ~ In "I"%char (" learned that" : str).
Proof. intros H. simpl in H. repeat destruct H as [H|H]; discriminate || exact H. Qed.

(** C4. When the reply contains "I learned that", the extraction returns
    normally and adds exactly one fact at the end of the facts: the text
    after the last occurrence of "I learned that" in the reply, stripped
    of the periods and spaces at its two ends. *)
Theorem learned_fact_added (reply : str) (h : handler) :
  Py.contains "I learned that" reply = true ->
  exists a b fact,
    Spec.last_occurrence "I learned that" reply a b
    /\ Spec.stripped ". " b fact
    /\ fst (_update_world_model_from_response reply h) = Ok tt
    /\ WorldModel.facts (world_model (snd (_update_world_model_from_response reply h)))
       = WorldModel.facts (world_model h) ++ [fact].
Proof.
  intros Hc. rewrite extraction_run. cbn [fst snd].
  destruct (split_last_piece "I"%char " learned that" learned_separator
              (length reply) reply (Nat.le_refl _) Hc) as [a [b [Hlast Hb]]].
  exists a, b, (Py.strip ". " b). split; [exact Hlast|].
  split; [apply strip_stripped|]. split; [reflexivity|].
  cbn [world_model set_world_model]. rewrite extraction_facts, Hc.
  unfold learned_fact.
  change (Py.split_nonempty "I learned that" reply)
    with (Py.split_nonempty ("I"%char :: " learned that") reply).
  rewrite Hb. reflexivity.
Qed.

(** On the reply of the specification's example the fact that is added is
    "the sky is blue". *)
Lemma learned_fact_added_witness :
  Py.contains "I learned that" "Sure, I learned that the sky is blue." = true
  /\ WorldModel.facts
       (world_model (snd (_update_world_model_from_response
                            "Sure, I learned that the sky is blue."
                            Examples.handler0)))
     = ["the sky is blue"].
Proof.
  split; [reflexivity|].
  destruct (learned_fact_added "Sure, I learned that the sky is blue."
              Examples.handler0 eq_refl)
    as [a [b [fact [Hlast [Hstrip [_ Hfacts]]]]]].
  rewrite Hfacts.
  destruct (split_last_piece "I"%char " learned that" learned_separator _
              "Sure, I learned that the sky is blue." (Nat.le_refl _) eq_refl)
    as [a0 [b0 [Hlast0 Hb0]]].
  destruct (last_occurrence_unique _ _ _ _ _ _ Hlast Hlast0) as [_ Eb].
  apply stripped_strip in Hstrip. rewrite Hstrip, Eb, <- Hb0. reflexivity.
Defined.

(** The reply of the specification's example adds the fact
    "the sky is blue". *)
Example learned_fact_sky_is_blue :
  WorldModel.facts
    (world_model (snd (_update_world_model_from_response
                         "Sure, I learned that the sky is blue." Examples.handler0)))
  = ["the sky is blue"].
Proof. reflexivity. Qed.


(** C5, as the code has it.  When the lower-cased reply contains
    "you prefer", the extraction returns normally and stores under the key
    "user_preference", replacing any value already there and leaving every
    other key alone, the text that lies between the first occurrence of
    "you prefer" in the lower-cased reply and the next occurrence of it, or
    the end of the reply when there is no other, stripped of the periods
    and spaces at its two ends. *)
Theorem preference_stored (reply : str) (h : handler) :
  Py.contains "you prefer" (Py.lower reply) = true ->
  exists low a b piece preference,
    Spec.lower_cased reply low
    /\ Spec.first_occurrence "you prefer" low a b
    /\ (((forall x y, ~ Spec.occurrence "you prefer" b x y) /\ piece = b)
        \/ exists rest, Spec.first_occurrence "you prefer" b piece rest)
    /\ Spec.stripped ". " piece preference
    /\ fst (_update_world_model_from_response reply h) = Ok tt
    /\ dict_get "user_preference"
         (WorldModel.user_preferences
            (world_model (snd (_update_world_model_from_response reply h))))
       = Some preference
    /\ forall k, k <> "user_preference" ->
         dict_get k (WorldModel.user_preferences
                       (world_model (snd (_update_world_model_from_response reply h))))
         = dict_get k (WorldModel.user_preferences (world_model h)).
Proof.
  intros Hc. rewrite extraction_run. cbn [fst snd world_model set_world_model].
  rewrite extraction_user_preferences, Hc.
  destruct (split_once_contains _ _ Hc) as [a [b Ho]].
  destruct (split_second_piece "you prefer" (Py.lower reply) a b
              ltac:(discriminate) Ho) as [rest Es].
  set (piece := match Py.split_once "you prefer" b with Some (m, _) => m | None => b end)
    in *.
  exists (Py.lower reply), a, b, piece, (Py.strip ". " piece).
  split; [apply lower_cased_iff; reflexivity|].
  split; [apply split_once_Some; exact Ho|].
  split; [|split; [apply strip_stripped|split; [reflexivity|split]]].
  - subst piece. destruct (Py.split_once "you prefer" b) as [[m b2]|] eqn:Ho2.
    + right. exists b2. apply split_once_Some. exact Ho2.
    + left. split; [|reflexivity]. intros x y E.
      apply split_once_None in Ho2. exact (contains_false _ _ x y Ho2 E).
  - rewrite dict_get_set_same. unfold preference_text. rewrite Es. reflexivity.
  - intros k Hk. apply dict_get_set_other. exact Hk.
Qed.

(** On the reply of the specification's example the preference that is
    stored is "dark mode". *)
Lemma preference_stored_witness :
  Py.contains "you prefer" (Py.lower "I noticed you prefer dark mode.") = true
  /\ dict_get "user_preference"
       (WorldModel.user_preferences
          (world_model (snd (_update_world_model_from_response
                               "I noticed you prefer dark mode." Examples.handler0))))
     = Some "dark mode".
Proof.
  split; [reflexivity|].
  destruct (preference_stored "I noticed you prefer dark mode." Examples.handler0
              eq_refl)
    as [low [a [b [piece [preference
         [Hlow [Hfirst [Hpiece [Hstrip [_ [Hget _]]]]]]]]]]].
  rewrite Hget. f_equal.
  apply lower_cased_iff in Hlow. rewrite Hlow in Hfirst.
  assert (Hknown : Spec.first_occurrence "you prefer"
                     (Py.lower "I noticed you prefer dark mode.")
                     "i noticed " " dark mode.")
    by (apply split_once_Some; reflexivity).
  destruct (first_occurrence_unique _ _ _ _ _ _ Hfirst Hknown) as [_ Eb].
  apply stripped_strip in Hstrip. rewrite Hstrip.
  destruct Hpiece as [[_ Ep] | [rest [Hocc _]]].
  - rewrite Ep, Eb. reflexivity.
  - exfalso. rewrite Eb in Hocc.
    assert (Hc : Py.contains "you prefer" " dark mode." = true)
      by (apply contains_iff; exists piece, rest; exact Hocc).
    discriminate Hc.
Defined.

(** The reply of the specification's example sets "user_preference" to
    "dark mode". *)
Example preference_dark_mode :
  WorldModel.user_preferences
    (world_model (snd (_update_world_model_from_response
                         "I noticed you prefer dark mode." Examples.handler0)))
  = [("user_preference", "dark mode")].
Proof. reflexivity. Qed.

(** C5, as stated, fails on a reply that says "you prefer" twice: the
    stored text stops at the second occurrence, it is not the whole text
    after the first one. *)
Lemma preference_not_whole_tail :
  Py.contains "you prefer" (Py.lower Examples.reply_two_preferences) = true
  /\ Spec.first_occurrence "you prefer" (Py.lower Examples.reply_two_preferences)
       "" " tea, but you prefer coffee more."
  /\ Spec.after_first "you prefer" (Py.lower Examples.reply_two_preferences)
     = Some " tea, but you prefer coffee more."
  /\ dict_get "user_preference"
       (WorldModel.user_preferences
          (world_model (snd (_update_world_model_from_response
                               Examples.reply_two_preferences Examples.handler0))))
     = Some "tea, but"
  /\ Some "tea, but" <> Some (Py.strip ". " " tea, but you prefer coffee more.").
Proof.
  split; [reflexivity|]. split.
  - split; [reflexivity | intros; simpl; lia].
  - split; [reflexivity|]. split; [reflexivity | discriminate].
Qed.

(** C6. The extraction returns normally and appends to the hardware
    events, in the order button, motion, sensor, led, one event
    "Hardware interaction mentioned: <keyword>" for each of the keywords
    "button", "motion", "sensor" and "led" that the reply mentions with
    some casing, and nothing else; the reply "the button and the led"
    appends two events, one for "button" and one for "led". *)
Theorem keyword_events_recorded (reply : str) (h : handler) :
  (exists keep : str -> bool,
     (forall keyword, keep keyword = true <-> Spec.mentioned keyword reply)
     /\ fst (_update_world_model_from_response reply h) = Ok tt
     /\ WorldModel.hardware_events
          (world_model (snd (_update_world_model_from_response reply h)))
        = WorldModel.hardware_events (world_model h)
          ++ map (fun keyword => "Hardware interaction mentioned: " ++ keyword)
                 (filter keep ["button"; "motion"; "sensor"; "led"]))
  /\ WorldModel.hardware_events
       (world_model (snd (_update_world_model_from_response
                            "the button and the led" h)))
     = WorldModel.hardware_events (world_model h)
       ++ ["Hardware interaction mentioned: button";
           "Hardware interaction mentioned: led"].
Proof.
  split.
  - exists (fun keyword => Py.contains keyword (Py.lower reply)).
    split; [intros keyword; apply contains_lower_iff|].
    rewrite extraction_run. cbn [fst snd world_model set_world_model].
    split; [reflexivity|]. rewrite extraction_hardware_events. reflexivity.
  - rewrite extraction_run. cbn [fst snd world_model set_world_model].
    rewrite extraction_hardware_events. reflexivity.
Qed.

(** A reply mentioning the button and the led gives two events, one for
    each keyword. *)
Example button_and_led_events :
  WorldModel.hardware_events
    (world_model (snd (_update_world_model_from_response
                         "the button and the led" Examples.handler0)))
  = ["Hardware interaction mentioned: button"; "Hardware interaction mentioned: led"].
Proof. reflexivity. Qed.

End Extraction.

(** ** The operations of the world model *)

Section WorldModelOps.
Import WorldModel.

Lemma grew_refl (A : Type) (l : list A) : Spec.grew l l.
Proof. exists []. rewrite app_nil_r. reflexivity. Qed.

Lemma grew_trans (A : Type) (l1 l2 l3 : list A) :
  Spec.grew l1 l2 -> Spec.grew l2 l3 -> Spec.grew l1 l3.
Proof.
  intros [a ->] [b ->]. exists (a ++ b). rewrite app_assoc. reflexivity.
Qed.

(** What was in a sequence that grew is still at its position. *)
Lemma grew_nth_error (A : Type) (before after : list A) (i : nat) (x : A) :
  Spec.grew before after -> nth_error before i = Some x -> nth_error after i = Some x.
Proof.
  intros [added ->] Hi. rewrite nth_error_app1; [exact Hi|].
  apply nth_error_Some. congruence.
Qed.

(** Every operation of the class returns normally. *)
Lemma run_op_returns (o : op) (w : WorldModel.t) : exists v, fst (run_op o w) = Ok v.
Proof. destruct o; eexists; reflexivity. Qed.

(** C9. Every operation of the world model other than [clear] leaves the
    facts and the hardware events as they were or with entries added at
    the end, and [clear] empties the facts, the hardware events, the state
    and the preferences. *)
Theorem facts_and_events_only_grow (o : op) (w : WorldModel.t) :
  match o with
  | Clear =>
      facts (snd (run_op o w)) = []
      /\ hardware_events (snd (run_op o w)) = []
      /\ state (snd (run_op o w)) = []
      /\ user_preferences (snd (run_op o w)) = []
  | _ =>
      Spec.grew (facts w) (facts (snd (run_op o w)))
      /\ Spec.grew (hardware_events w) (hardware_events (snd (run_op o w)))
  end.
Proof.
  destruct o; cbn; try (split; apply grew_refl).
  - split; [exists [fact]; reflexivity | apply grew_refl].
  - split; [apply grew_refl | exists [event_description]; reflexivity].
  - repeat split.
Qed.

(** The same over any sequence of calls without [clear]. *)
Lemma run_op_grows (o : op) (w : WorldModel.t) :
  is_clear o = false ->
  Spec.grew (facts w) (facts (snd (run_op o w)))
  /\ Spec.grew (hardware_events w) (hardware_events (snd (run_op o w))).
Proof.
  destruct o; intros Hc; try discriminate Hc; cbn; try (split; apply grew_refl).
  - split; [exists [fact]; reflexivity | apply grew_refl].
  - split; [apply grew_refl | exists [event_description]; reflexivity].
Qed.

Lemma run_ops_only_grow (ops : list op) (w : WorldModel.t) :
  existsb is_clear ops = false ->
  Spec.grew (facts w) (facts (run_ops ops w))
  /\ Spec.grew (hardware_events w) (hardware_events (run_ops ops w)).
Proof.
  revert w. induction ops as [|o ops IH]; intros w Hc.
  - split; apply grew_refl.
  - simpl in Hc. apply orb_false_iff in Hc. destruct Hc as [Ho Hc].
    unfold run_ops. cbn [fold_left]. fold (run_ops ops (snd (run_op o w))).
    destruct (IH (snd (run_op o w)) Hc) as [F E].
    destruct (run_op_grows o w Ho) as [F0 E0].
    split; [exact (grew_trans _ _ _ _ F0 F) | exact (grew_trans _ _ _ _ E0 E)].
Qed.

(** C2. world_model.py has no [update_hardware_state]: looking the name up
    finds nothing, a call with any component and value raises
    [AttributeError] and stores nothing, and the monitor pass that sees the
    button pin change ends in that exception without recording the new
    level. *)
Theorem update_hardware_state_is_missing (component value : str) (w : WorldModel.t) :
  lookup "update_hardware_state" = None
  /\ call "update_hardware_state" [component; value] w
     = (Raise (AttributeError "update_hardware_state"), w)
  /\ HardwareIntegration.monitor_try (Ok true) (Ok false)
       (HardwareIntegration.mk_frame Examples.monitor0 false false)
     = (Raise (AttributeError "update_hardware_state"),
        HardwareIntegration.mk_frame Examples.monitor0 false false).
Proof. repeat split. Qed.

End WorldModelOps.

(** ** The dialogue turn *)

Section Turn.
Import PyData APIHandler ChatHandlerWorld.

Local Abbreviation handler := (ChatHandlerWorld.t WorldModel.t).

(** The result of a turn is the answer of the collaborator, whatever the
    world model does during the extraction. *)
Lemma generate_response_result {W : Type} {WM : WorldModelLike W}
  (api : api_call) (t_user t_reply prompt : str) (h : ChatHandlerWorld.t W)
  (outcome : result str) :
  llm_outcome api t_user prompt h = Some outcome ->
  fst (generate_response api t_user t_reply prompt h) = outcome.
Proof.
  unfold llm_outcome, generate_response, turn_messages.
  unfold try_except, bind, modify, get_self, on_world, on_field, lift_result, ret, raise.
  cbn [world_model append_history config conversation_history max_history].
  destruct (wm_get_summary (world_model h)) as [[summary|e] w1]; [|discriminate].
  intros E. injection E as E.
  cbn [world_model set_world_model config conversation_history max_history].
  match goal with |- context [api ?m ?p] =>
    replace (api m p) with outcome by (symmetry; exact E) end.
  destruct outcome as [text|e].
  - unfold _update_world_model_from_response, try_except.
    match goal with |- context [extraction_try ?t ?s] =>
      destruct (extraction_try t s) as [[[]|e'] s'] end; reflexivity.
  - reflexivity.
Qed.


(** A turn on a [WorldModel] of world_model.py, step by step. *)
Lemma llm_outcome_run (api : api_call) (t_user prompt : str) (h : handler) :
  llm_outcome api t_user prompt h =
    Some (api (turn_messages (WorldModel.get_summary (world_model h)) prompt t_user h)
              (Some (full_system_prompt_text (configured_system_prompt (config h))
                       (WorldModel.get_summary (world_model h))))).
Proof. reflexivity. Qed.

Lemma generate_response_run (api : api_call) (t_user t_reply prompt : str)
  (h : handler) :
  generate_response api t_user t_reply prompt h =
    match api (turn_messages (WorldModel.get_summary (world_model h)) prompt t_user h)
              (Some (full_system_prompt_text (configured_system_prompt (config h))
                       (WorldModel.get_summary (world_model h)))) with
    | Ok text =>
        (Ok text,
         set_world_model (extraction text (world_model h))
           (append_history (mk_message "assistant" text t_reply)
              (append_history (mk_message "user" prompt t_user) h)))
    | Raise e => (Raise e, append_history (mk_message "user" prompt t_user) h)
    end.
Proof.
  unfold generate_response.
  set (h1 := append_history (mk_message "user" prompt t_user) h).
  unfold try_except at 1.
  erewrite bind_ok by reflexivity.
  erewrite bind_ok by reflexivity.
  erewrite bind_ok with (s' := h1) (a := WorldModel.get_summary (world_model h)).
  2:{ unfold on_world, on_field. cbn [world_model h1 append_history].
      rewrite get_summary_run. destruct h; reflexivity. }
  erewrite bind_ok by reflexivity.
  unfold lift_result at 1. unfold bind at 1.
  match goal with |- _ = match api ?m ?p with _ => _ end => set (out := api m p) end.
  match goal with |- context [api ?m ?p] => change (api m p) with out end.
  destruct out as [text|e].
  - erewrite bind_ok by reflexivity.
    erewrite bind_ok by (rewrite extraction_run; reflexivity).
    reflexivity.
  - reflexivity.
Qed.

(** C8. In a turn that gets to call the language model, over any world
    model: the turn ends as the call ended, so a failure of the call is
    re-raised to the caller and a reply is returned unchanged; and a failure
    inside the extraction is swallowed, the extraction returning normally
    with the state reached at the failure. *)
Theorem llm_failure_raised_extraction_failure_swallowed
  {W : Type} {WM : WorldModelLike W}
  (api : api_call) (t_user t_reply prompt : str) (h : ChatHandlerWorld.t W)
  (outcome : result str) :
  llm_outcome api t_user prompt h = Some outcome ->
  fst (generate_response api t_user t_reply prompt h) = outcome
  /\ forall text h' e s',
       extraction_try text h' = (Raise e, s') ->
       _update_world_model_from_response text h' = (Ok tt, s').
Proof.
  intros Ho. split.
  - apply generate_response_result. exact Ho.
  - intros text h' e s' E. unfold _update_world_model_from_response.
    rewrite (try_except_raise _ _ _ _ _ E). reflexivity.
Qed.

Lemma llm_failure_raised_extraction_failure_swallowed_witness :
  @llm_outcome _ Examples.broken_add_fact
    (Examples.api_answers "I learned that cats purr.") "t0" "hello" Examples.handler0
  = Some (Ok "I learned that cats purr.")
  /\ (fst (@generate_response _ Examples.broken_add_fact
             (Examples.api_answers "I learned that cats purr.") "t0" "t1" "hello"
             Examples.handler0)
      = Ok "I learned that cats purr."
      /\ forall text h' e s',
           @extraction_try _ Examples.broken_add_fact text h' = (Raise e, s') ->
           @_update_world_model_from_response _ Examples.broken_add_fact text h'
           = (Ok tt, s')).
Proof.
  split; [reflexivity|].
  apply (@llm_failure_raised_extraction_failure_swallowed _ Examples.broken_add_fact).
  reflexivity.
Defined.

(** With a world model whose [add_fact] raises, the extraction does fail
    on this reply, and the failure is not seen by the caller. *)
Example extraction_failure_swallowed :
  @extraction_try _ Examples.broken_add_fact "I learned that cats purr."
    Examples.handler0
  = (Raise (ExternalError "add_fact failed"), Examples.handler0)
  /\ @_update_world_model_from_response _ Examples.broken_add_fact
       "I learned that cats purr." Examples.handler0
     = (Ok tt, Examples.handler0).
Proof. split; reflexivity. Qed.

(** C10. When the language-model call of a turn raises, the turn raises
    the same exception; the user's message is the last entry of the
    history, no assistant message was added, and the world model is as it
    was before the turn. *)
Theorem failed_turn_keeps_user_message (api : api_call)
  (t_user t_reply prompt : str) (h : handler) (e : exn) :
  llm_outcome api t_user prompt h = Some (Raise e) ->
  fst (generate_response api t_user t_reply prompt h) = Raise e
  /\ conversation_history (snd (generate_response api t_user t_reply prompt h))
     = conversation_history h ++ [mk_message "user" prompt t_user]
  /\ world_model (snd (generate_response api t_user t_reply prompt h)) = world_model h.
Proof.
  intros Ho. rewrite llm_outcome_run in Ho. injection Ho as Ho.
  rewrite generate_response_run, Ho. repeat split.
Qed.

Lemma failed_turn_keeps_user_message_witness :
  llm_outcome (Examples.api_fails (ExternalError "rate limit")) "t0" "hello"
    Examples.handler0
  = Some (Raise (ExternalError "rate limit"))
  /\ (fst (generate_response (Examples.api_fails (ExternalError "rate limit"))
             "t0" "t1" "hello" Examples.handler0)
      = Raise (ExternalError "rate limit")
      /\ conversation_history
           (snd (generate_response (Examples.api_fails (ExternalError "rate limit"))
                   "t0" "t1" "hello" Examples.handler0))
         = conversation_history Examples.handler0 ++ [mk_message "user" "hello" "t0"]
      /\ world_model
           (snd (generate_response (Examples.api_fails (ExternalError "rate limit"))
                   "t0" "t1" "hello" Examples.handler0))
         = world_model Examples.handler0).
Proof.
  split; [reflexivity|].
  apply (failed_turn_keeps_user_message
           (Examples.api_fails (ExternalError "rate limit")) "t0" "t1" "hello"
           Examples.handler0 (ExternalError "rate limit")).
  reflexivity.
Defined.

(** The window of a positive [max_history] is the last [max_history]
    entries of the history, oldest first, behind the system message. *)
Lemma slice_from_last_n (A : Type) (n : Z) (l : list A) :
  1 <= n -> Py.slice_from (- n) l = Spec.last_n (Z.to_nat n) l.
Proof.
  intros Hn. unfold Py.slice_from, Py.slice_start, Spec.last_n.
  destruct (- n <? 0) eqn:E; [|apply Z.ltb_ge in E; lia].
  f_equal. lia.
Qed.

Lemma build_messages_window (sp : str) (history : list message) (n : Z) :
  1 <= n ->
  build_messages sp history n
  = mk_chat "system" sp :: map to_chat (Spec.last_n (Z.to_nat n) history).
Proof.
  intros Hn. unfold build_messages. rewrite slice_from_last_n by exact Hn.
  reflexivity.
Qed.

Lemma last_n_length (A : Type) (n : nat) (l : list A) :
  length (Spec.last_n n l) = Nat.min n (length l).
Proof. unfold Spec.last_n. rewrite length_skipn. lia. Qed.

(** [generate_response] only adds user and assistant entries. *)
Lemma generate_response_roles (api : api_call) (t_user t_reply prompt : str)
  (h : handler) :
  Forall conversational (conversation_history h) ->
  Forall conversational
    (conversation_history (snd (generate_response api t_user t_reply prompt h))).
Proof.
  intros Hh. rewrite generate_response_run.
  assert (Hu : Forall conversational [mk_message "user" prompt t_user])
    by (constructor; [left; reflexivity | constructor]).
  match goal with |- context [api ?m ?p] => destruct (api m p) as [text|e] end;
    cbn [snd conversation_history set_world_model append_history].
  - apply Forall_app. split; [apply Forall_app; split; assumption|].
    constructor; [right; reflexivity | constructor].
  - apply Forall_app. split; assumption.
Qed.

(** Whatever [max_history] is, the messages start with the system message
    and, over a history of user and assistant entries, hold it once. *)
Lemma build_messages_system_once (sp : str) (history : list message) (n : Z) :
  Forall conversational history ->
  exists rest,
    build_messages sp history n = mk_chat "system" sp :: rest
    /\ Forall (fun m => role m = "user" \/ role m = "assistant") rest.
Proof.
  intros Hh. unfold build_messages. eexists. split; [reflexivity|].
  apply Forall_map. unfold Py.slice_from.
  rewrite <- (firstn_skipn (Py.slice_start (- n) (length history)) history) in Hh.
  apply Forall_app in Hh. exact (proj2 Hh).
Qed.

(** What api_handler.py sends on: the system prompt is put in front of
    messages that already start with it. *)
Lemma full_system_prompt_text_not_empty (system_prompt world_summary : str) :
  full_system_prompt_text system_prompt world_summary <> [].
Proof.
  unfold full_system_prompt_text. intros E.
  apply (f_equal (@length ascii)) in E. rewrite !length_app in E.
  simpl in E. lia.
Qed.

Lemma format_messages_repeats_system (sp : str) (history : list message) (n : Z) :
  sp <> [] ->
  format_messages (build_messages sp history n) (Some sp)
  = mk_chat "system" sp :: build_messages sp history n.
Proof.
  intros Hne. unfold format_messages. destruct sp; [congruence | reflexivity].
Qed.

Lemma slice_from_zero (A : Type) (l : list A) : Py.slice_from (- 0) l = l.
Proof.
  unfold Py.slice_from, Py.slice_start. cbn [Z.opp Z.ltb Z.compare].
  rewrite Z.min_l by lia. reflexivity.
Qed.

(** C3. With [max_history = 0] the slice [conversation_history[-0:]] is
    the whole history: the messages handed over are the system message
    followed by every entry of the history, not by the last zero of them.
    In the first turn of a handler configured so, two messages are handed
    over, the system message and the user message.  Besides, with any
    [max_history], api_handler.py puts the system prompt in front of these
    messages once more: in the first turn of a handler with the default
    configuration the OpenAI client receives the system message twice. *)
Theorem window_of_zero_is_whole_history (sp : str) (history : list message) :
  build_messages sp history 0 = mk_chat "system" sp :: map to_chat history
  /\ Spec.last_n 0 history = []
  /\ turn_messages (WorldModel.get_summary WorldModel.init) "hi" "t0"
       Examples.handler_zero
     = [mk_chat "system"
          (full_system_prompt_text "You are a helpful AI assistant."
             (WorldModel.get_summary WorldModel.init));
        mk_chat "user" "hi"]
  /\ format_messages
       (turn_messages (WorldModel.get_summary WorldModel.init) "hi" "t0"
          Examples.handler0)
       (Some (full_system_prompt_text "You are a helpful AI assistant."
                (WorldModel.get_summary WorldModel.init)))
     = [mk_chat "system"
          (full_system_prompt_text "You are a helpful AI assistant."
             (WorldModel.get_summary WorldModel.init));
        mk_chat "system"
          (full_system_prompt_text "You are a helpful AI assistant."
             (WorldModel.get_summary WorldModel.init));
        mk_chat "user" "hi"].
Proof.
  split; [|split; [|split; reflexivity]].
  - unfold build_messages. rewrite slice_from_zero. reflexivity.
  - unfold Spec.last_n. rewrite Nat.sub_0_r. apply skipn_all.
Qed.

(** The specification's example: with [max_history = 3] and a history of
    five messages, the system message and the last three messages are
    handed over, oldest first. *)
Example window_of_three_of_five (sp : str) (m1 m2 m3 m4 m5 : message) :
  build_messages sp [m1; m2; m3; m4; m5] 3
  = [mk_chat "system" sp; to_chat m3; to_chat m4; to_chat m5].
Proof. reflexivity. Qed.

End Turn.

(** ** The hardware monitor *)

Section MonitorFacts.
Import HardwareIntegration.
Context {W : Type} {WM : WorldModelLike W}.


Hypothesis event_ok : forall d (w : W), fst (wm_update_hardware_event d w) = Ok tt.
Hypothesis state_ok : forall c v (w : W), fst (wm_update_hardware_state c v w) = Ok tt.









End MonitorFacts.



(** Over a world model that has [update_hardware_state], both edges of
    the button readings are mirrored into the state: the release after
    the first two passes, the press after all four, and the press is the
    only hardware event. *)
Example button_release_is_mirrored_only :
  HardwareIntegration.world_model
    (snd (@HardwareIntegration._monitor_loop _ Spec.with_hardware_state
            (Ok false) (Ok false)
            (HardwareIntegration.reads_of (firstn 2 (Examples.button_levels false)))
            Examples.monitor0))
  = WorldModel.mk [("button", "released")] [] [] [].
Proof. reflexivity. Qed.

Example button_readings_world_model :
  HardwareIntegration.world_model
    (snd (@HardwareIntegration._monitor_loop _ Spec.with_hardware_state
            (Ok false) (Ok false)
            (HardwareIntegration.reads_of (Examples.button_levels false))
            Examples.monitor0))
  = WorldModel.mk [("button", "pressed")] [] [] ["Hardware event: button_press"].
Proof. reflexivity. Qed.

(** Over the [WorldModel] of world_model.py a change of the button level
    is never recorded: the pass ends in the swallowed [AttributeError] with
    both stored levels as they were, so the same edge is seen again by the
    next pass. *)
Lemma button_change_not_recorded (hw : HardwareIntegration.t WorldModel.t)
  (b m ms : bool) :
  fst (HardwareIntegration.monitor_try (Ok (negb b)) (Ok m)
         (HardwareIntegration.mk_frame hw b ms))
  = Raise (AttributeError "update_hardware_state")
  /\ fst (HardwareIntegration.monitor_pass (HardwareIntegration.poll (negb b) m)
            (HardwareIntegration.mk_frame hw b ms)) = Ok tt
  /\ HardwareIntegration.button_state
       (snd (HardwareIntegration.monitor_pass (HardwareIntegration.poll (negb b) m)
               (HardwareIntegration.mk_frame hw b ms))) = b
  /\ HardwareIntegration.motion_state
       (snd (HardwareIntegration.monitor_pass (HardwareIntegration.poll (negb b) m)
               (HardwareIntegration.mk_frame hw b ms))) = ms.
Proof.
  unfold HardwareIntegration.monitor_pass, HardwareIntegration.poll. cbn [fst snd].
  unfold try_except.
  assert (E : exists hw',
             HardwareIntegration.monitor_try (Ok (negb b)) (Ok m)
               (HardwareIntegration.mk_frame hw b ms)
             = (Raise (AttributeError "update_hardware_state"),
                HardwareIntegration.mk_frame hw' b ms)).
  { unfold HardwareIntegration.monitor_try, HardwareIntegration.check_button.
    unfold HardwareIntegration._handle_event, HardwareIntegration.on_self,
      HardwareIntegration.on_world, on_field, bind, get_self, lift_result,
      modify, try_except.
    destruct hw as [w cbs hd]. destruct b; cbn.
    - destruct (HardwareIntegration.callbacks_get "button_press" cbs) as [cb|]; cbn.
      + match goal with |- context [cb ?x] => destruct (cb x) as [[[]|e] w2] end;
          cbn; eexists; reflexivity.
      + eexists; reflexivity.
    - eexists; reflexivity. }
  destruct E as [hw' E]. rewrite E. cbn. repeat split.
Qed.

(** ** More on the world model *)

Section WorldModelMore.
Import PyData WorldModel.

(** [get_state] after [set_state] returns the value just set for the same
    key and what it returned before for any other key; it finds nothing
    in a new or cleared world model. *)
Theorem get_state_after_set_state (k k' v : str) (w : WorldModel.t) :
  get_state k' (set_state k v w)
  = (if Py.str_eqb k' k then Some v else get_state k' w)
  /\ get_state k init = None
  /\ get_state k (clear w) = None.
Proof.
  unfold get_state, set_state. cbn [state]. split; [|split; reflexivity].
  destruct (Py.str_eqb k' k) eqn:E.
  - apply str_eqb_eq in E. subst k'. apply dict_get_set_same.
  - apply dict_get_set_other. intros ->.
    assert (Py.str_eqb k k = true) by (apply str_eqb_eq; reflexivity). congruence.
Qed.

Lemma existsb_str_eqb_false (k : str) (keys : list str) :
  existsb (fun k' => Py.str_eqb k' k) keys = false -> ~ In k keys.
Proof.
  intros He Hin. assert (existsb (fun k' => Py.str_eqb k' k) keys = true).
  { apply existsb_exists. exists k. split; [exact Hin|]. apply str_eqb_eq. reflexivity. }
  congruence.
Qed.

Lemma dict_set_NoDup (k v : str) (d : dict) :
  NoDup (dict_keys d) -> NoDup (dict_keys (dict_set k v d)).
Proof.
  intros Hd. rewrite dict_set_keys.
  destruct (existsb (fun k' => Py.str_eqb k' k) (dict_keys d)) eqn:E; [exact Hd|].
  apply NoDup_app; [exact Hd | repeat constructor; intros [] | ].
  intros x Hx [<-|[]]. exact (existsb_str_eqb_false k _ E Hx).
Qed.

Lemma run_op_keys_NoDup (o : op) (w : WorldModel.t) :
  NoDup (dict_keys (state w)) /\ NoDup (dict_keys (user_preferences w)) ->
  NoDup (dict_keys (state (snd (run_op o w))))
  /\ NoDup (dict_keys (user_preferences (snd (run_op o w)))).
Proof.
  intros [Hs Hp]. destruct o; cbn; try (split; assumption).
  - split; [apply dict_set_NoDup; exact Hs | exact Hp].
  - split; [exact Hs | apply dict_set_NoDup; exact Hp].
  - split; constructor.
Qed.

(** Whatever calls are made on a new world model, no key of the state or
    of the preferences is ever held twice. *)
Theorem keys_stay_unique (ops : list op) :
  NoDup (dict_keys (state (run_ops ops init)))
  /\ NoDup (dict_keys (user_preferences (run_ops ops init))).
Proof.
  assert (G : forall w,
             NoDup (dict_keys (state w)) /\ NoDup (dict_keys (user_preferences w)) ->
             NoDup (dict_keys (state (run_ops ops w)))
             /\ NoDup (dict_keys (user_preferences (run_ops ops w)))).
  { induction ops as [|o ops IH]; intros w Hw; [exact Hw|].
    unfold run_ops. cbn [fold_left]. apply IH. apply run_op_keys_NoDup. exact Hw. }
  apply G. split; constructor.
Qed.

Lemma dict_set_twice (k v1 v2 : str) (d : dict) :
  dict_set k v2 (dict_set k v1 d) = dict_set k v2 d.
Proof.
  induction d as [|[k0 v0] d IH]; simpl.
  - replace (Py.str_eqb k k) with true by (symmetry; apply str_eqb_eq; reflexivity).
    reflexivity.
  - destruct (Py.str_eqb k0 k) eqn:E; simpl; rewrite E; [reflexivity|].
    rewrite IH. reflexivity.
Qed.

Lemma dict_set_length (k v : str) (d : dict) :
  length (dict_set k v d) =
    if existsb (fun k' => Py.str_eqb k' k) (dict_keys d) then length d
    else S (length d).
Proof.
  unfold dict_keys. induction d as [|[k0 v0] d IH]; simpl; [reflexivity|].
  destruct (Py.str_eqb k0 k) eqn:E; simpl; [reflexivity|].
  rewrite IH. destruct (existsb _ (map fst d)); reflexivity.
Qed.

(** Setting a key again replaces the value in place: the second write
    wins, the first one leaves no trace, and the map does not get longer. *)
Theorem second_write_wins (k v1 v2 : str) (w : WorldModel.t) :
  set_state k v2 (set_state k v1 w) = set_state k v2 w
  /\ update_user_preference k v2 (update_user_preference k v1 w)
     = update_user_preference k v2 w
  /\ length (state (set_state k v2 (set_state k v1 w)))
     = length (state (set_state k v1 w)).
Proof.
  unfold set_state, update_user_preference. cbn [state facts user_preferences hardware_events].
  rewrite !dict_set_twice. split; [reflexivity|]. split; [reflexivity|].
  rewrite <- (dict_set_twice k v1 v2 (state w)).
  rewrite (dict_set_length k v2 (dict_set k v1 (state w))).
  rewrite dict_set_keys.
  destruct (existsb (fun k' => Py.str_eqb k' k) (dict_keys (state w))) eqn:E.
  - rewrite E. reflexivity.
  - rewrite existsb_app, E. cbn.
    replace (Py.str_eqb k k) with true by (symmetry; apply str_eqb_eq; reflexivity).
    reflexivity.
Qed.

Lemma occurrence_inside (p s a b : str) :
  Py.contains p s = true -> Py.contains p (a ++ s ++ b) = true.
Proof.
  rewrite !contains_iff. intros [x [y E]]. unfold Spec.occurrence in *.
  exists (a ++ x), (y ++ b). rewrite E, <- !app_assoc. reflexivity.
Qed.

Lemma contains_after (p s a : str) :
  Py.contains p s = true -> Py.contains p (a ++ s) = true.
Proof.
  intros Hc. rewrite <- (app_nil_r s). apply occurrence_inside. exact Hc.
Qed.

Lemma contains_refl (s : str) : Py.contains s s = true.
Proof.
  apply contains_iff. exists [], []. unfold Spec.occurrence.
  rewrite app_nil_r. reflexivity.
Qed.

Lemma join_contains (sep x : str) (items : list str) :
  In x items -> Py.contains x (Py.join sep items) = true.
Proof.
  induction items as [|y items IH]; intros Hin; [destruct Hin|].
  destruct items as [|z items].
  - destruct Hin as [->|[]]. apply contains_refl.
  - cbn [Py.join]. destruct Hin as [->|Hin].
    + apply (occurrence_inside x x [] (sep ++ Py.join sep (z :: items))).
      apply contains_refl.
    + apply (occurrence_inside x (Py.join sep (z :: items)) (y ++ sep) []) in IH;
        [|exact Hin].
      rewrite app_nil_r, <- app_assoc in IH. exact IH.
Qed.

Lemma contains_trans (p q s : str) :
  Py.contains p q = true -> Py.contains q s = true -> Py.contains p s = true.
Proof.
  intros Hpq Hqs. apply contains_iff in Hqs. destruct Hqs as [a [b E]].
  unfold Spec.occurrence in E. rewrite E. apply occurrence_inside. exact Hpq.
Qed.

Lemma summary_contains_fact (w : WorldModel.t) (fact : str) :
  In fact (facts w) -> Py.contains fact (get_summary w) = true.
Proof.
  intros Hin. unfold get_summary. cbv zeta.
  eapply contains_trans; [|apply join_contains; left; reflexivity].
  destruct (facts w) as [|f fs] eqn:Ef; [destruct Hin|]. cbn [is_empty].
  apply contains_after. apply join_contains. exact Hin.
Qed.

Lemma summary_contains_event (w : WorldModel.t) (event : str) :
  In event (hardware_events w) -> Py.contains event (get_summary w) = true.
Proof.
  intros Hin. unfold get_summary. cbv zeta.
  eapply contains_trans; [|apply join_contains; right; left; reflexivity].
  destruct (hardware_events w) as [|f fs] eqn:Ef; [destruct Hin|]. cbn [is_empty].
  apply contains_after. apply join_contains. exact Hin.
Qed.

(** Every fact and every hardware event of the world model is written out
    in its summary. *)
Theorem summary_shows_facts_and_events (w : WorldModel.t) :
  Forall (fun fact => Py.contains fact (get_summary w) = true) (facts w)
  /\ Forall (fun event => Py.contains event (get_summary w) = true) (hardware_events w).
Proof.
  split; apply Forall_forall; intros x Hin.
  - apply summary_contains_fact. exact Hin.
  - apply summary_contains_event. exact Hin.
Qed.

End WorldModelMore.

(** ** More on the dialogue turn *)

Section TurnMore.
Import PyData APIHandler ChatHandlerWorld.

Local Abbreviation handler := (ChatHandlerWorld.t WorldModel.t).

Lemma generate_response_ok (api : api_call) (t_user t_reply prompt text : str)
  (h : handler) :
  llm_outcome api t_user prompt h = Some (Ok text) ->
  generate_response api t_user t_reply prompt h
  = (Ok text,
     mk (config h) (extraction text (world_model h))
        (conversation_history h
         ++ [mk_message "user" prompt t_user; mk_message "assistant" text t_reply])
        (max_history h)).
Proof.
  intros Ho. rewrite llm_outcome_run in Ho. injection Ho as Ho.
  rewrite generate_response_run, Ho.
  unfold set_world_model, append_history.
  cbn [config world_model conversation_history max_history].
  rewrite <- app_assoc. reflexivity.
Qed.

(** A turn whose language-model call returns gives back the reply, adds
    the user entry and then the assistant entry to the history, and leaves
    in the world model what the extraction makes of the reply. *)
Theorem successful_turn (api : api_call) (t_user t_reply prompt text : str)
  (h : handler) :
  llm_outcome api t_user prompt h = Some (Ok text) ->
  fst (generate_response api t_user t_reply prompt h) = Ok text
  /\ conversation_history (snd (generate_response api t_user t_reply prompt h))
     = conversation_history h
       ++ [mk_message "user" prompt t_user; mk_message "assistant" text t_reply]
  /\ world_model (snd (generate_response api t_user t_reply prompt h))
     = extraction text (world_model h)
  /\ config (snd (generate_response api t_user t_reply prompt h)) = config h
  /\ max_history (snd (generate_response api t_user t_reply prompt h)) = max_history h.
Proof.
  intros Ho. rewrite (generate_response_ok api t_user t_reply prompt text h Ho).
  repeat split.
Qed.

Lemma successful_turn_witness :
  llm_outcome (Examples.api_answers "Hello.") "t0" "hi" Examples.handler0
  = Some (Ok "Hello.")
  /\ fst (generate_response (Examples.api_answers "Hello.") "t0" "t1" "hi"
            Examples.handler0) = Ok "Hello."
  /\ conversation_history
       (snd (generate_response (Examples.api_answers "Hello.") "t0" "t1" "hi"
               Examples.handler0))
     = conversation_history Examples.handler0
       ++ [mk_message "user" "hi" "t0"; mk_message "assistant" "Hello." "t1"]
  /\ world_model
       (snd (generate_response (Examples.api_answers "Hello.") "t0" "t1" "hi"
               Examples.handler0))
     = extraction "Hello." (world_model Examples.handler0)
  /\ config (snd (generate_response (Examples.api_answers "Hello.") "t0" "t1" "hi"
                    Examples.handler0)) = config Examples.handler0
  /\ max_history (snd (generate_response (Examples.api_answers "Hello.") "t0" "t1" "hi"
                         Examples.handler0)) = max_history Examples.handler0.
Proof.
  split; [reflexivity|].
  apply (successful_turn (Examples.api_answers "Hello.") "t0" "t1" "hi" "Hello."
           Examples.handler0).
  reflexivity.
Defined.

(** With a positive [max_history], a turn hands over the system message
    and at most [max_history] entries of the history: one plus the smaller
    of [max_history] and the length of the history with the new user
    entry. *)
Theorem window_is_bounded (summary prompt t_user : str) (h : handler) :
  1 <= max_history h ->
  length (turn_messages summary prompt t_user h)
  = S (Nat.min (Z.to_nat (max_history h)) (S (length (conversation_history h)))).
Proof.
  intros Hn. unfold turn_messages. rewrite build_messages_window by exact Hn.
  cbn [length]. rewrite length_map, last_n_length, length_app. cbn [length].
  rewrite Nat.add_1_r. reflexivity.
Qed.

Lemma window_is_bounded_witness :
  1 <= max_history Examples.handler0
  /\ length (turn_messages "s" "hi" "t0" Examples.handler0)
     = S (Nat.min (Z.to_nat (max_history Examples.handler0))
                  (S (length (conversation_history Examples.handler0)))).
Proof.
  split; [cbn; lia|].
  apply (window_is_bounded "s" "hi" "t0" Examples.handler0). cbn. lia.
Defined.

Lemma slice_from_single (A : Type) (n : Z) (x : A) :
  0 <= n -> Py.slice_from (- n) [x] = [x].
Proof.
  intros Hn. unfold Py.slice_from, Py.slice_start. cbn [length].
  destruct (- n <? 0) eqn:E.
  - apply Z.ltb_lt in E. replace (Z.to_nat (Z.max 0 (- n + Z.of_nat 1))) with 0%nat by lia.
    reflexivity.
  - apply Z.ltb_ge in E. replace (Z.to_nat (Z.min (- n) (Z.of_nat 1))) with 0%nat by lia.
    reflexivity.
Qed.

(** [clear_history] empties the history and leaves the world model and
    the configuration alone: in the turn after it, with a [max_history]
    that is not negative, only the system message and the new user message
    are handed over. *)
Theorem turn_after_clear_history (summary prompt t_user : str) (h : handler) :
  0 <= max_history h ->
  conversation_history (clear_history h) = []
  /\ world_model (clear_history h) = world_model h
  /\ turn_messages summary prompt t_user (clear_history h)
     = [mk_chat "system"
          (full_system_prompt_text (configured_system_prompt (config h)) summary);
        mk_chat "user" prompt].
Proof.
  intros Hn. split; [reflexivity|]. split; [reflexivity|].
  unfold turn_messages, build_messages, clear_history.
  cbn [config conversation_history max_history app].
  rewrite slice_from_single by exact Hn. reflexivity.
Qed.

Lemma turn_after_clear_history_witness :
  0 <= max_history Examples.handler_zero
  /\ (conversation_history (clear_history Examples.handler_zero) = []
      /\ world_model (clear_history Examples.handler_zero)
         = world_model Examples.handler_zero
      /\ turn_messages "s" "hi" "t0" (clear_history Examples.handler_zero)
         = [mk_chat "system"
              (full_system_prompt_text
                 (configured_system_prompt (config Examples.handler_zero)) "s");
            mk_chat "user" "hi"]).
Proof.
  split; [cbn; lia|].
  apply (turn_after_clear_history "s" "hi" "t0" Examples.handler_zero). cbn. lia.
Defined.

(** A reply with none of the patterns leaves the handler, and so the
    world model, exactly as it was. *)
Theorem extraction_without_patterns (reply : str) (h : handler) :
  Py.contains "I learned that" reply = false ->
  Py.contains "you prefer" (Py.lower reply) = false ->
  forallb (fun keyword => negb (Py.contains keyword (Py.lower reply)))
          hardware_keywords = true ->
  _update_world_model_from_response reply h = (Ok tt, h).
Proof.
  intros Hf Hp Hk. rewrite extraction_run. f_equal.
  unfold extraction. rewrite Hf, Hp. cbv zeta.
  unfold hardware_keywords in *. cbn [forallb] in Hk. cbn [fold_left].
  repeat (apply andb_true_iff in Hk; destruct Hk as [?H Hk]).
  repeat match goal with
         | H : negb (Py.contains ?k ?t) = true |- _ =>
             apply negb_true_iff in H; rewrite H
         end.
  apply set_world_model_same.
Qed.

Lemma extraction_without_patterns_witness :
  Py.contains "I learned that" "Good morning!" = false
  /\ Py.contains "you prefer" (Py.lower "Good morning!") = false
  /\ forallb (fun keyword => negb (Py.contains keyword (Py.lower "Good morning!")))
             hardware_keywords = true
  /\ _update_world_model_from_response "Good morning!" Examples.handler0
     = (Ok tt, Examples.handler0).
Proof.
  split; [reflexivity|]. split; [reflexivity|]. split; [reflexivity|].
  apply (extraction_without_patterns "Good morning!" Examples.handler0); reflexivity.
Defined.

Lemma lower_chr_idempotent (c : ascii) : Py.lower_chr (Py.lower_chr c) = Py.lower_chr c.
Proof. destruct c as [[] [] [] [] [] [] [] []]; vm_compute; reflexivity. Qed.

Lemma lower_fixed (s : str) : Forall (fun c => Py.lower_chr c = c) (Py.lower s).
Proof.
  unfold Py.lower. apply Forall_map. apply Forall_forall. intros c _.
  apply lower_chr_idempotent.
Qed.

Lemma fixed_lower (s : str) : Forall (fun c => Py.lower_chr c = c) s -> Py.lower s = s.
Proof.
  unfold Py.lower. induction 1 as [|c s Hc _ IH]; simpl; [reflexivity|].
  rewrite Hc, IH. reflexivity.
Qed.

Lemma slice_fixed (s a p b : str) :
  s = a ++ p ++ b ->
  Forall (fun c => Py.lower_chr c = c) s -> Forall (fun c => Py.lower_chr c = c) p.
Proof.
  intros -> H. apply Forall_app in H. destruct H as [_ H].
  apply Forall_app in H. exact (proj1 H).
Qed.

(** The preference is taken from the lower-cased reply: whatever the
    casing of the reply, the text stored under "user_preference" has no
    capital letter. *)
Theorem stored_preference_is_lower_case (reply : str) (h : handler) :
  Py.contains "you prefer" (Py.lower reply) = true ->
  exists p,
    dict_get "user_preference"
      (WorldModel.user_preferences
         (world_model (snd (_update_world_model_from_response reply h))))
    = Some p
    /\ Py.lower p = p.
Proof.
  intros Hc. rewrite extraction_run. cbn [snd world_model set_world_model].
  rewrite extraction_user_preferences, Hc, dict_get_set_same.
  eexists. split; [reflexivity|]. apply fixed_lower.
  destruct (split_once_contains _ _ Hc) as [a [b Ho]].
  destruct (split_second_piece "you prefer" (Py.lower reply) a b
              ltac:(discriminate) Ho) as [rest Es].
  unfold preference_text. rewrite Es. cbn [nth].
  destruct (split_once_Some _ _ _ _ Ho) as [E _]. unfold Spec.occurrence in E.
  assert (Hb : Forall (fun c => Py.lower_chr c = c) b).
  { apply (slice_fixed (Py.lower reply) (a ++ "you prefer") b []).
    - rewrite app_nil_r, <- app_assoc. exact E.
    - apply lower_fixed. }
  assert (Hpiece : Forall (fun c => Py.lower_chr c = c)
                     (match Py.split_once "you prefer" b with
                      | Some (m, _) => m
                      | None => b
                      end)).
  { destruct (Py.split_once "you prefer" b) as [[m b2]|] eqn:Ho2; [|exact Hb].
    destruct (split_once_Some _ _ _ _ Ho2) as [E2 _]. unfold Spec.occurrence in E2.
    apply (slice_fixed b [] m ("you prefer" ++ b2)); [exact E2 | exact Hb]. }
  match goal with |- Forall _ (Py.strip ?chars ?piece) =>
    destruct (strip_spec chars piece) as [l [t [Es' _]]];
    apply (slice_fixed piece l (Py.strip chars piece) t Es' Hpiece)
  end.
Qed.

Lemma stored_preference_is_lower_case_witness :
  Py.contains "you prefer" (Py.lower "YOU PREFER Dark Mode.") = true
  /\ exists p,
      dict_get "user_preference"
        (WorldModel.user_preferences
           (world_model (snd (_update_world_model_from_response
                                "YOU PREFER Dark Mode." Examples.handler0))))
      = Some p
      /\ Py.lower p = p.
Proof.
  split; [reflexivity|].
  apply (stored_preference_is_lower_case "YOU PREFER Dark Mode." Examples.handler0).
  reflexivity.
Defined.

(** What the model says it learned is shown to it again: after a turn
    whose reply contains "I learned that", one fact has been added, and the
    system message of the next turn contains that fact. *)
Theorem learned_fact_reaches_next_prompt (api api' : api_call)
  (t_user t_reply prompt reply t_user' prompt' : str) (h : handler) :
  llm_outcome api t_user prompt h = Some (Ok reply) ->
  Py.contains "I learned that" reply = true ->
  exists fact system_text rest,
    WorldModel.facts (world_model (snd (generate_response api t_user t_reply prompt h)))
    = WorldModel.facts (world_model h) ++ [fact]
    /\ llm_outcome api' t_user' prompt'
         (snd (generate_response api t_user t_reply prompt h))
       = Some (api' (mk_chat "system" system_text :: rest) (Some system_text))
    /\ Py.contains fact system_text = true.
Proof.
  intros Ho Hc. rewrite (generate_response_ok api t_user t_reply prompt reply h Ho).
  cbn [snd]. rewrite llm_outcome_run. cbn [world_model config].
  unfold turn_messages, build_messages. cbn [config conversation_history max_history app].
  do 3 eexists. split; [|split; [reflexivity|]].
  - rewrite extraction_facts, Hc. reflexivity.
  - unfold full_system_prompt_text.
    do 5 apply contains_after.
    match goal with |- Py.contains _ (?summary ++ ?tail) = true =>
      rewrite <- (app_nil_l (summary ++ tail));
      apply (occurrence_inside _ summary [] tail)
    end.
    apply summary_contains_fact. rewrite extraction_facts, Hc.
    apply in_or_app. right. left. reflexivity.
Qed.

Lemma learned_fact_reaches_next_prompt_witness :
  llm_outcome (Examples.api_answers "I learned that cats purr.") "t0" "hi"
    Examples.handler0
  = Some (Ok "I learned that cats purr.")
  /\ Py.contains "I learned that" "I learned that cats purr." = true
  /\ exists fact system_text rest,
      WorldModel.facts
        (world_model (snd (generate_response
                             (Examples.api_answers "I learned that cats purr.")
                             "t0" "t1" "hi" Examples.handler0)))
      = WorldModel.facts (world_model Examples.handler0) ++ [fact]
      /\ llm_outcome (Examples.api_answers "ok") "t2" "and?"
           (snd (generate_response (Examples.api_answers "I learned that cats purr.")
                   "t0" "t1" "hi" Examples.handler0))
         = Some (Examples.api_answers "ok" (mk_chat "system" system_text :: rest)
                   (Some system_text))
      /\ Py.contains fact system_text = true.
Proof.
  split; [reflexivity|]. split; [reflexivity|].
  apply (learned_fact_reaches_next_prompt
           (Examples.api_answers "I learned that cats purr.")
           (Examples.api_answers "ok") "t0" "t1" "hi" "I learned that cats purr."
           "t2" "and?" Examples.handler0); reflexivity.
Defined.

(** A turn, failed or not, never removes a fact or a hardware event, never
    touches the state map, and changes no preference other than
    "user_preference". *)
Theorem turn_keeps_world_model_entries (api : api_call)
  (t_user t_reply prompt k : str) (h : handler) :
  k <> "user_preference" ->
  Spec.grew (WorldModel.facts (world_model h))
    (WorldModel.facts
       (world_model (snd (generate_response api t_user t_reply prompt h))))
  /\ Spec.grew (WorldModel.hardware_events (world_model h))
       (WorldModel.hardware_events
          (world_model (snd (generate_response api t_user t_reply prompt h))))
  /\ WorldModel.state
       (world_model (snd (generate_response api t_user t_reply prompt h)))
     = WorldModel.state (world_model h)
  /\ dict_get k (WorldModel.user_preferences
                   (world_model (snd (generate_response api t_user t_reply prompt h))))
     = dict_get k (WorldModel.user_preferences (world_model h)).
Proof.
  intros Hk. rewrite generate_response_run.
  match goal with |- context [api ?m ?p] => destruct (api m p) as [text|e] end;
    cbn [snd world_model set_world_model append_history].
  - rewrite extraction_facts, extraction_hardware_events, extraction_state,
      extraction_user_preferences.
    split; [|split; [|split]].
    + destruct (Py.contains "I learned that" text);
        [eexists; reflexivity | apply grew_refl].
    + eexists; reflexivity.
    + reflexivity.
    + destruct (Py.contains "you prefer" (Py.lower text)); [|reflexivity].
      apply dict_get_set_other. exact Hk.
  - repeat split; apply grew_refl.
Qed.

Lemma turn_keeps_world_model_entries_witness :
  ("mode" : str) <> "user_preference"
  /\ Spec.grew (WorldModel.facts (world_model Examples.handler0))
       (WorldModel.facts
          (world_model (snd (generate_response
                               (Examples.api_answers "I learned that you prefer tea.")
                               "t0" "t1" "hi" Examples.handler0))))
  /\ Spec.grew (WorldModel.hardware_events (world_model Examples.handler0))
       (WorldModel.hardware_events
          (world_model (snd (generate_response
                               (Examples.api_answers "I learned that you prefer tea.")
                               "t0" "t1" "hi" Examples.handler0))))
  /\ WorldModel.state
       (world_model (snd (generate_response
                            (Examples.api_answers "I learned that you prefer tea.")
                            "t0" "t1" "hi" Examples.handler0)))
     = WorldModel.state (world_model Examples.handler0)
  /\ dict_get "mode"
       (WorldModel.user_preferences
          (world_model (snd (generate_response
                               (Examples.api_answers "I learned that you prefer tea.")
                               "t0" "t1" "hi" Examples.handler0))))
     = dict_get "mode" (WorldModel.user_preferences (world_model Examples.handler0)).
Proof.
  split; [discriminate|].
  apply (turn_keeps_world_model_entries
           (Examples.api_answers "I learned that you prefer tea.") "t0" "t1" "hi"
           "mode" Examples.handler0).
  discriminate.
Defined.

(** When nothing but periods and spaces follows "I learned that", the
    fact that is added is the empty text. *)
Theorem empty_fact_is_added (before tail : str) (h : handler) :
  Forall (fun c => Py.chr_in c ". " = true) tail ->
  WorldModel.facts
    (world_model (snd (_update_world_model_from_response
                         (before ++ "I learned that" ++ tail) h)))
  = WorldModel.facts (world_model h) ++ [""].
Proof.
  intros Ht. set (reply := before ++ "I learned that" ++ tail).
  assert (Hc : Py.contains "I learned that" reply = true).
  { apply contains_iff. exists before, tail. reflexivity. }
  rewrite extraction_run. cbn [snd world_model set_world_model].
  rewrite extraction_facts, Hc. do 2 f_equal.
  destruct (split_last_piece "I"%char " learned that" learned_separator
              (length reply) reply (Nat.le_refl _) Hc) as [a [b [Hlast Hb]]].
  assert (Hmine : Spec.last_occurrence "I learned that" reply before tail).
  { split; [reflexivity|]. intros a' b' E'. unfold Spec.occurrence in E'.
    destruct (Nat.le_gt_cases (length a') (length before)) as [Hle|Hgt]; [exact Hle|].
    exfalso. unfold reply in E'.
    destruct (no_overlap "I"%char " learned that" before tail a' b'
                learned_separator E' Hgt) as [m ->].
    rewrite <- !app_assoc in E'. apply app_inv_head in E'.
    change ("I learned that" ++ tail = "I learned that" ++ m ++ "I learned that" ++ b')
      in E'.
    apply app_inv_head in E'. rewrite E' in Ht.
    apply Forall_app in Ht. destruct Ht as [_ Ht]. inversion Ht as [|c l Hc' _].
    discriminate Hc'. }
  destruct (last_occurrence_unique _ _ _ _ _ _ Hlast Hmine) as [_ ->].
  unfold learned_fact.
  change (Py.split_nonempty "I learned that" reply)
    with (Py.split_nonempty ("I"%char :: " learned that") reply).
  rewrite Hb. apply strip_all. exact Ht.
Qed.

Lemma empty_fact_is_added_witness :
  Forall (fun c => Py.chr_in c ". " = true) (" ..." : str)
  /\ WorldModel.facts
       (world_model (snd (_update_world_model_from_response
                            ("Well. " ++ "I learned that" ++ " ...") Examples.handler0)))
     = WorldModel.facts (world_model Examples.handler0) ++ [""].
Proof.
  assert (H : Forall (fun c => Py.chr_in c ". " = true) (" ..." : str))
    by (repeat constructor).
  split; [exact H|].
  apply (empty_fact_is_added "Well. " " ..." Examples.handler0 H).
Defined.

End TurnMore.

(** ** The API handler *)

Section APIHandlerFacts.
Import APIHandler.

(** [generate_response] fails only when the three attempts fail, and then
    with the exception of the third one. *)
Theorem retry_fails_after_three_failures
  (client : nat -> list chat_message -> result str)
  (messages : list chat_message) (system_prompt : option str) (e : exn) :
  generate_response client messages system_prompt = Raise e
  <-> exists e0 e1,
        attempt (client 0%nat) messages system_prompt = Raise e0
        /\ attempt (client 1%nat) messages system_prompt = Raise e1
        /\ attempt (client 2%nat) messages system_prompt = Raise e.
Proof.
  unfold generate_response. split.
  - destruct (attempt (client 0%nat) messages system_prompt) as [t0|e0]; [discriminate|].
    destruct (attempt (client 1%nat) messages system_prompt) as [t1|e1]; [discriminate|].
    intros E. exists e0, e1. repeat split. exact E.
  - intros [e0 [e1 [-> [-> E]]]]. exact E.
Qed.

Lemma attempt_stripped (acreate : list chat_message -> result str)
  (messages : list chat_message) (system_prompt : option str) (text : str) :
  attempt acreate messages system_prompt = Ok text ->
  exists content, text = Py.strip whitespace content.
Proof.
  unfold attempt. destruct (acreate _) as [content|e]; [|discriminate].
  intros E. injection E as <-. exists content. reflexivity.
Qed.

(** A reply that [generate_response] returns neither starts nor ends with
    a whitespace character. *)
Theorem reply_has_no_outer_whitespace
  (client : nat -> list chat_message -> result str)
  (messages : list chat_message) (system_prompt : option str) (text : str) :
  generate_response client messages system_prompt = Ok text ->
  match text with
  | c :: _ => Py.chr_in c whitespace = false
  | [] => True
  end
  /\ match rev text with
     | c :: _ => Py.chr_in c whitespace = false
     | [] => True
     end.
Proof.
  intros E.
  assert (Hs : exists content, text = Py.strip whitespace content).
  { unfold generate_response in E.
    destruct (attempt (client 0%nat) messages system_prompt) as [t0|e0] eqn:E0.
    - injection E as <-. exact (attempt_stripped _ _ _ _ E0).
    - destruct (attempt (client 1%nat) messages system_prompt) as [t1|e1] eqn:E1.
      + injection E as <-. exact (attempt_stripped _ _ _ _ E1).
      + exact (attempt_stripped _ _ _ _ E). }
  destruct Hs as [content ->].
  destruct (strip_spec whitespace content) as [l [t [_ [_ [_ [Hh Hl]]]]]].
  split.
  - destruct (Py.strip whitespace content) as [|c u] eqn:Es; [exact I|].
    exact (Hh c u eq_refl).
  - destruct (rev (Py.strip whitespace content)) as [|c u] eqn:Er; [exact I|].
    apply (Hl (rev u) c). rewrite <- (rev_involutive (Py.strip whitespace content)), Er.
    reflexivity.
Qed.

Lemma reply_has_no_outer_whitespace_witness :
  generate_response (fun _ _ => Ok "  Hello there. ") [mk_chat "user" "hi"] None
  = Ok "Hello there."
  /\ (match ("Hello there." : str) with
      | c :: _ => Py.chr_in c whitespace = false
      | [] => True
      end
      /\ match rev ("Hello there." : str) with
         | c :: _ => Py.chr_in c whitespace = false
         | [] => True
         end).
Proof.
  split; [reflexivity|].
  apply (reply_has_no_outer_whitespace (fun _ _ => Ok "  Hello there. ")
           [mk_chat "user" "hi"] None "Hello there.").
  reflexivity.
Defined.

End APIHandlerFacts.

(** ** The speech recognizer *)

Section SpeechFacts.
Import SpeechRecognizer.

(** The text [listen] returns has no capital letter. *)
Theorem heard_text_is_lower_case (recognized : result str) (text : str) :
  listen recognized = Some text -> Py.lower text = text.
Proof.
  unfold listen. destruct recognized as [t|e]; [|discriminate].
  intros E. injection E as <-. apply fixed_lower. apply lower_fixed.
Qed.

Lemma heard_text_is_lower_case_witness :
  listen (Ok "Turn On The LED") = Some "turn on the led"
  /\ Py.lower "turn on the led" = "turn on the led".
Proof.
  split; [reflexivity|].
  apply (heard_text_is_lower_case (Ok "Turn On The LED") "turn on the led").
  reflexivity.
Defined.

(** A wake word with a capital letter is never detected, whatever is
    said: it is looked for in the lower-cased text. *)
Theorem capital_wake_word_never_detected (recognized : result str) (wake_word : str) :
  Py.lower wake_word <> wake_word ->
  detect_wake_word recognized wake_word = false.
Proof.
  intros Hw. unfold detect_wake_word. destruct recognized as [text|e]; [|reflexivity].
  destruct (Py.contains wake_word (Py.lower text)) eqn:Hc; [|reflexivity].
  exfalso. apply Hw. apply fixed_lower.
  apply contains_iff in Hc. destruct Hc as [a [b E]]. unfold Spec.occurrence in E.
  apply (slice_fixed (Py.lower text) a wake_word b E). apply lower_fixed.
Qed.

Lemma capital_wake_word_never_detected_witness :
  Py.lower "Wunderkind" <> "Wunderkind"
  /\ detect_wake_word (Ok "Hey Wunderkind") "Wunderkind" = false.
Proof.
  split; [discriminate|].
  apply (capital_wake_word_never_detected (Ok "Hey Wunderkind") "Wunderkind").
  discriminate.
Defined.

End SpeechFacts.

(** ** More on the hardware monitor *)

Section MonitorMore.
Import HardwareIntegration.
Context {W : Type} {WM : WorldModelLike W}.

Lemma callbacks_get_set (event_type event_type' : str) (cb : callback)
  (d : list (str * callback (W := W))) :
  callbacks_get event_type' (callbacks_set event_type cb d)
  = if Py.str_eqb event_type' event_type then Some cb
    else callbacks_get event_type' d.
Proof.
  induction d as [|[k cb0] d IH]; simpl.
  - destruct (Py.str_eqb event_type' event_type) eqn:E.
    + apply str_eqb_eq in E. subst.
      replace (Py.str_eqb event_type event_type) with true
        by (symmetry; apply str_eqb_eq; reflexivity). reflexivity.
    + destruct (Py.str_eqb event_type event_type') eqn:E'; [|reflexivity].
      apply str_eqb_eq in E'. subst.
      assert (Py.str_eqb event_type' event_type' = true) by (apply str_eqb_eq; reflexivity).
      congruence.
  - destruct (Py.str_eqb k event_type) eqn:Ek; simpl.
    + apply str_eqb_eq in Ek. subst k.
      destruct (Py.str_eqb event_type event_type') eqn:E.
      * apply str_eqb_eq in E. subst.
        replace (Py.str_eqb event_type' event_type') with true
          by (symmetry; apply str_eqb_eq; reflexivity). reflexivity.
      * destruct (Py.str_eqb event_type' event_type) eqn:E'; [|reflexivity].
        apply str_eqb_eq in E'. subst.
        assert (Py.str_eqb event_type event_type = true) by (apply str_eqb_eq; reflexivity).
        congruence.
    + rewrite IH. destruct (Py.str_eqb k event_type') eqn:E; [|reflexivity].
      apply str_eqb_eq in E. subst k.
      destruct (Py.str_eqb event_type' event_type) eqn:E'; [|reflexivity].
      congruence.
Qed.

Lemma callbacks_set_length (event_type : str) (cb cb' : callback)
  (d : list (str * callback (W := W))) :
  length (callbacks_set event_type cb' (callbacks_set event_type cb d))
  = length (callbacks_set event_type cb d).
Proof.
  induction d as [|[k cb0] d IH]; simpl.
  - replace (Py.str_eqb event_type event_type) with true
      by (symmetry; apply str_eqb_eq; reflexivity). reflexivity.
  - destruct (Py.str_eqb k event_type) eqn:Ek; simpl; rewrite Ek; simpl;
      [reflexivity | rewrite IH; reflexivity].
Qed.

(** [register_callback] makes the callback the one found for its event
    type and leaves the callbacks of the other event types, the world model
    and the record of handled events alone; registering again for the same
    event type replaces the callback without adding an entry. *)
Theorem registered_callback_is_found (event_type event_type' : str)
  (cb cb' : callback) (hw : t W) :
  callbacks_get event_type' (event_callbacks (register_callback event_type cb hw))
  = (if Py.str_eqb event_type' event_type then Some cb
     else callbacks_get event_type' (event_callbacks hw))
  /\ callbacks_get event_type
       (event_callbacks (register_callback event_type cb'
                           (register_callback event_type cb hw)))
     = Some cb'
  /\ length (event_callbacks (register_callback event_type cb'
                                (register_callback event_type cb hw)))
     = length (event_callbacks (register_callback event_type cb hw))
  /\ world_model (register_callback event_type cb hw) = world_model hw
  /\ handled (register_callback event_type cb hw) = handled hw.
Proof.
  unfold register_callback. cbn [event_callbacks world_model handled].
  split; [apply callbacks_get_set|]. split.
  - rewrite callbacks_get_set.
    replace (Py.str_eqb event_type event_type) with true
      by (symmetry; apply str_eqb_eq; reflexivity). reflexivity.
  - split; [apply callbacks_set_length | split; reflexivity].
Qed.



(** The two reads made before the loop are not protected: when one of
    them raises, [_monitor_loop] ends with that exception before any pass
    and nothing has changed.  Inside the loop, a pass whose button read
    raises changes nothing at all. *)
Theorem failed_reads (e : exn) (b : bool) (first : result bool)
  (motion_read : result bool) (polls : list (result bool * result bool))
  (hw : t W) (fr : frame W) :
  _monitor_loop (Raise e) first polls hw = (Raise e, hw)
  /\ _monitor_loop (Ok b) (Raise e) polls hw = (Raise e, hw)
  /\ monitor_pass (Raise e, motion_read) fr = (Ok tt, fr).
Proof. repeat split. Qed.

(** An exception of a registered callback is swallowed by
    [_handle_event]: the event has been recorded, what the callback did to
    the world model before raising stays, and the caller sees a normal
    return. *)
Theorem failing_callback_is_swallowed (event_type : str) (cb : callback)
  (hw : t W) (w1 w2 : W) (e : exn) :
  callbacks_get event_type (event_callbacks hw) = Some cb ->
  wm_update_hardware_event ("Hardware event: " ++ event_type) (world_model hw)
  = (Ok tt, w1) ->
  cb w1 = (Raise e, w2) ->
  _handle_event event_type hw
  = (Ok tt, mk w2 (event_callbacks hw) (handled hw ++ [event_type])).
Proof.
  intros Hcb Hev Hraise.
  unfold _handle_event, bind, modify, on_world, on_field, get_self, set_world_model,
    try_except.
  cbn [world_model event_callbacks handled]. rewrite Hev.
  cbn [world_model event_callbacks handled]. rewrite Hcb.
  cbn [world_model event_callbacks handled]. rewrite Hraise. reflexivity.
Qed.

(** When recording the event raises, [_handle_event] raises the same
    exception and the callback is not called: the world model is the one
    the failed call left. *)
Theorem unrecorded_event_skips_callback (event_type : str) (hw : t W) (w1 : W)
  (e : exn) :
  wm_update_hardware_event ("Hardware event: " ++ event_type) (world_model hw)
  = (Raise e, w1) ->
  _handle_event event_type hw
  = (Raise e, mk w1 (event_callbacks hw) (handled hw ++ [event_type])).
Proof.
  intros Hev.
  unfold _handle_event, bind, modify, on_world, on_field, get_self, set_world_model.
  cbn [world_model event_callbacks handled]. rewrite Hev. reflexivity.
Qed.

(** [set_led] never raises. *)
Lemma set_led_returns (gpio_output : result unit) (state : bool) (hw : t W) :
  fst (set_led gpio_output state hw) = Ok tt.
Proof. apply try_except_swallow. Qed.

End MonitorMore.

Lemma failing_callback_is_swallowed_witness :
  HardwareIntegration.callbacks_get "button_press"
    (HardwareIntegration.event_callbacks MoreExamples.monitor_with_failing_callback)
  = Some MoreExamples.failing_callback
  /\ wm_update_hardware_event ("Hardware event: " ++ "button_press")
       (HardwareIntegration.world_model MoreExamples.monitor_with_failing_callback)
     = (Ok tt, WorldModel.mk [] [] [] ["Hardware event: button_press"])
  /\ MoreExamples.failing_callback
       (WorldModel.mk [] [] [] ["Hardware event: button_press"])
     = (Raise (ExternalError "callback failed"),
        WorldModel.mk [] ["callback ran"] [] ["Hardware event: button_press"])
  /\ HardwareIntegration._handle_event "button_press"
       MoreExamples.monitor_with_failing_callback
     = (Ok tt,
        HardwareIntegration.mk
          (WorldModel.mk [] ["callback ran"] [] ["Hardware event: button_press"])
          (HardwareIntegration.event_callbacks MoreExamples.monitor_with_failing_callback)
          (HardwareIntegration.handled MoreExamples.monitor_with_failing_callback
           ++ ["button_press"])).
Proof.
  split; [reflexivity|]. split; [reflexivity|]. split; [reflexivity|].
  apply (failing_callback_is_swallowed "button_press" MoreExamples.failing_callback
           MoreExamples.monitor_with_failing_callback
           (WorldModel.mk [] [] [] ["Hardware event: button_press"])
           (WorldModel.mk [] ["callback ran"] [] ["Hardware event: button_press"])
           (ExternalError "callback failed")); reflexivity.
Defined.

Lemma unrecorded_event_skips_callback_witness :
  @wm_update_hardware_event _ MoreExamples.broken_update_hardware_event
    ("Hardware event: " ++ "button_press")
    (HardwareIntegration.world_model MoreExamples.monitor_with_failing_callback)
  = (Raise (ExternalError "event not recorded"), WorldModel.init)
  /\ @HardwareIntegration._handle_event _ MoreExamples.broken_update_hardware_event
       "button_press" MoreExamples.monitor_with_failing_callback
     = (Raise (ExternalError "event not recorded"),
        HardwareIntegration.mk WorldModel.init
          (HardwareIntegration.event_callbacks MoreExamples.monitor_with_failing_callback)
          (HardwareIntegration.handled MoreExamples.monitor_with_failing_callback
           ++ ["button_press"])).
Proof.
  split; [reflexivity|].
  apply (@unrecorded_event_skips_callback _ MoreExamples.broken_update_hardware_event
           "button_press" MoreExamples.monitor_with_failing_callback WorldModel.init
           (ExternalError "event not recorded")).
  reflexivity.
Defined.

(** ** The hardware integration over world_model.py *)

Section MonitorOverWorldModel.
Import HardwareIntegration.

(** Over the [WorldModel] of world_model.py, [set_led] returns normally
    and records nothing, whether [GPIO.output] worked or not: the state
    update raises before the event "LED turned on" or "LED turned off" is
    written.  Over any world model it returns normally. *)
Theorem set_led_records_nothing (gpio_output : result unit) (state : bool)
  (hw : HardwareIntegration.t WorldModel.t) :
  set_led gpio_output state hw = (Ok tt, hw)
  /\ forall (W : Type) (WM : WorldModelLike W) (hw' : HardwareIntegration.t W),
       fst (set_led gpio_output state hw') = Ok tt.
Proof.
  split.
  - destruct hw as [w cbs hd]. destruct gpio_output as [[]|e]; reflexivity.
  - intros W WM hw'. apply set_led_returns.
Qed.

Lemma held_button_pass (hw : HardwareIntegration.t WorldModel.t) (m ms : bool) :
  exists hw',
    monitor_pass (poll LOW m) (mk_frame hw HIGH ms) = (Ok tt, mk_frame hw' HIGH ms)
    /\ handled hw' = handled hw ++ ["button_press"].
Proof.
  unfold monitor_pass, poll, monitor_try, check_button. cbn [fst snd].
  unfold _handle_event, on_self, on_world, on_field, bind, get_self, lift_result,
    modify, try_except.
  destruct hw as [w cbs hd]. cbn.
  destruct (callbacks_get "button_press" cbs) as [cb|]; cbn.
  - match goal with |- context [cb ?x] => destruct (cb x) as [[[]|e] w2] end;
      cbn; eexists; split; reflexivity.
  - eexists; split; reflexivity.
Qed.

(** Over the [WorldModel] of world_model.py a press is fired again by
    every pass for as long as the button is held: the stored level is never
    updated, so [n] passes reading [LOW] after a [HIGH] handle [n] press
    events, and the motion pin is not looked at in any of them. *)
Theorem held_button_fires_every_pass (n : nat) (m ms : bool)
  (hw : HardwareIntegration.t WorldModel.t) :
  handled (self_ (snd (monitor_passes (repeat (poll LOW m) n) (mk_frame hw HIGH ms))))
  = handled hw ++ repeat "button_press" n
  /\ button_state (snd (monitor_passes (repeat (poll LOW m) n) (mk_frame hw HIGH ms)))
     = HIGH
  /\ motion_state (snd (monitor_passes (repeat (poll LOW m) n) (mk_frame hw HIGH ms)))
     = ms.
Proof.
  revert hw. induction n as [|n IH]; intros hw.
  - cbn. rewrite app_nil_r. repeat split.
  - destruct (held_button_pass hw m ms) as [hw' [E Hh]].
    unfold monitor_passes. cbn [repeat for_each].
    erewrite bind_ok by exact E. fold (monitor_passes (repeat (poll LOW m) n)).
    destruct (IH hw') as [H1 [H2 H3]]. rewrite H1, H2, H3, Hh.
    rewrite <- app_assoc. repeat split.
Qed.

End MonitorOverWorldModel.

(** ** The configuration *)

Lemma Ok_inj (A : Type) (a b : A) : Ok a = Ok b -> a = b.
Proof. intros E. injection E as E. exact E. Qed.

Lemma fold_left_cons (A B : Type) (f : A -> B -> A) (x : B) (l : list B) (a : A) :
  fold_left f (x :: l) a = fold_left f l (f a x).
Proof. reflexivity. Qed.

Lemma Some_inj (A : Type) (a b : A) : Some a = Some b -> a = b.
Proof. intros E. injection E as E. exact E. Qed.

Section ConfigFacts.
Import Config.
Variable F : Type.
Variables f_volume f_phrase_timeout f_temperature : F.
Variable int_of : str -> option Z.
Variable float_of : str -> option F.

Local Abbreviation settings := (Config.settings F).
Local Abbreviation load_config :=
  (Config.load_config f_volume f_phrase_timeout f_temperature int_of float_of).
Local Abbreviation load_optional := (Config.load_optional int_of float_of).
Local Abbreviation DEFAULT_SETTINGS :=
  (Config.DEFAULT_SETTINGS f_volume f_phrase_timeout f_temperature).

Lemma str_eqb_refl (k : str) : Py.str_eqb k k = true.
Proof. apply str_eqb_eq. reflexivity. Qed.

Lemma config_get_set (k k' : str) (v : value F) (d : settings) :
  get k' (set k v d) = if Py.str_eqb k' k then Some v else get k' d.
Proof.
  induction d as [|[k0 v0] d IH]; simpl.
  - destruct (Py.str_eqb k' k) eqn:E.
    + apply str_eqb_eq in E. subst. rewrite str_eqb_refl. reflexivity.
    + destruct (Py.str_eqb k k') eqn:E'; [|reflexivity].
      apply str_eqb_eq in E'. subst. rewrite str_eqb_refl in E. discriminate.
  - destruct (Py.str_eqb k0 k) eqn:Ek; simpl.
    + apply str_eqb_eq in Ek. subst k0.
      destruct (Py.str_eqb k k') eqn:E.
      * apply str_eqb_eq in E. subst. rewrite str_eqb_refl. reflexivity.
      * destruct (Py.str_eqb k' k) eqn:E'; [|reflexivity].
        apply str_eqb_eq in E'. subst. rewrite str_eqb_refl in E. discriminate.
    + rewrite IH. destruct (Py.str_eqb k0 k') eqn:E; [|reflexivity].
      apply str_eqb_eq in E. subst k0.
      destruct (Py.str_eqb k' k) eqn:E'; [congruence | reflexivity].
Qed.

Lemma load_optional_other (getenv : str -> option str) (config : settings)
  (env_var key k : str) :
  Py.str_eqb k key = false ->
  get k (load_optional getenv config (env_var, key)) = get k config.
Proof.
  intros Hk. unfold Config.load_optional. destruct (getenv env_var) as [text|]; [|reflexivity].
  destruct (convert int_of float_of (get key config) text) as [v|]; [|reflexivity].
  rewrite config_get_set, Hk. reflexivity.
Qed.

Lemma load_optionals_other (getenv : str -> option str) (k : str)
  (vars : list (str * str)) (config : settings) :
  forallb (fun var => negb (Py.str_eqb k (snd var))) vars = true ->
  get k (fold_left (load_optional getenv) vars config) = get k config.
Proof.
  revert config. induction vars as [|[env_var key] vars IH]; intros config Hv;
    [reflexivity|].
  cbn [forallb snd] in Hv. apply andb_true_iff in Hv. destruct Hv as [Hk Hv].
  cbn [fold_left]. rewrite IH by exact Hv.
  apply load_optional_other. apply negb_true_iff. exact Hk.
Qed.

(** [load_config] raises [ValueError] exactly when OPENAI_API_KEY is not
    in the environment; a key that is set, be it to the empty text, is
    accepted and stored as it is. *)
Theorem load_config_requires_api_key (getenv : str -> option str) :
  match getenv "OPENAI_API_KEY" with
  | None => load_config getenv = Raise ValueError
  | Some key =>
      exists config,
        load_config getenv = Ok config
        /\ get "OPENAI_API_KEY" config = Some (VStr key)
  end.
Proof.
  unfold Config.load_config, required_vars. cbn [load_required].
  destruct (getenv "OPENAI_API_KEY") as [key|]; [|reflexivity].
  eexists. split; [reflexivity|].
  rewrite load_optionals_other by reflexivity.
  rewrite config_get_set. reflexivity.
Qed.

(** No environment variable changes a pin: in every configuration that
    [load_config] returns the four pins are 18, 23, 24 and 25. *)
Theorem pins_are_not_configurable (getenv : str -> option str) (config : settings) :
  load_config getenv = Ok config ->
  get "LED_PIN" config = Some (VInt 18)
  /\ get "BUTTON_PIN" config = Some (VInt 23)
  /\ get "MOTION_SENSOR_PIN" config = Some (VInt 24)
  /\ get "SERVO_PIN" config = Some (VInt 25).
Proof.
  unfold Config.load_config, required_vars. cbn [load_required].
  destruct (getenv "OPENAI_API_KEY") as [key|]; [|discriminate].
  intros E. apply Ok_inj in E. subst config.
  repeat split; rewrite load_optionals_other by reflexivity;
    rewrite config_get_set; reflexivity.
Qed.

(** The speech rate is the default 150 unless TTS_RATE is set to a text
    that [int] accepts: a text it rejects is skipped, not an error. *)
Theorem speech_rate_falls_back_to_default (getenv : str -> option str)
  (config : settings) :
  load_config getenv = Ok config ->
  get "TTS_RATE" config
  = Some (VInt (match getenv "TTS_RATE" with
                | Some text => match int_of text with Some n => n | None => 150 end
                | None => 150
                end)).
Proof.
  unfold Config.load_config, required_vars. cbn [load_required].
  destruct (getenv "OPENAI_API_KEY") as [key|]; [|discriminate].
  intros E. apply Ok_inj in E. subst config.
  unfold optional_vars. cbn [map].
  do 2 rewrite fold_left_cons.
  rewrite load_optionals_other by reflexivity.
  unfold Config.load_optional at 1.
  assert (Hr : forall c : settings,
             get "TTS_RATE" c = Some (VInt 150) ->
             get "TTS_RATE"
               (match getenv "TTS_RATE" with
                | Some text =>
                    match convert int_of float_of (get "TTS_RATE" c) text with
                    | Some v => set "TTS_RATE" v c
                    | None => c
                    end
                | None => c
                end)
             = Some (VInt (match getenv "TTS_RATE" with
                           | Some text =>
                               match int_of text with Some n => n | None => 150 end
                           | None => 150
                           end))).
  { intros c Hc. destruct (getenv "TTS_RATE") as [text|]; [|exact Hc].
    rewrite Hc. cbn [convert]. destruct (int_of text) as [n|]; cbn [option_map].
    - rewrite config_get_set. reflexivity.
    - exact Hc. }
  apply Hr. rewrite load_optional_other by reflexivity.
  rewrite config_get_set. reflexivity.
Qed.

End ConfigFacts.

Lemma pins_are_not_configurable_witness :
  Config.load_config tt tt tt MoreExamples.no_int MoreExamples.no_float
    MoreExamples.env_with_key
  = Ok (Config.DEFAULT_SETTINGS tt tt tt ++ [("OPENAI_API_KEY", Config.VStr "sk-test")])
  /\ (Config.get "LED_PIN"
        (Config.DEFAULT_SETTINGS tt tt tt ++ [("OPENAI_API_KEY", Config.VStr "sk-test")])
      = Some (Config.VInt 18)
      /\ Config.get "BUTTON_PIN"
           (Config.DEFAULT_SETTINGS tt tt tt
            ++ [("OPENAI_API_KEY", Config.VStr "sk-test")])
         = Some (Config.VInt 23)
      /\ Config.get "MOTION_SENSOR_PIN"
           (Config.DEFAULT_SETTINGS tt tt tt
            ++ [("OPENAI_API_KEY", Config.VStr "sk-test")])
         = Some (Config.VInt 24)
      /\ Config.get "SERVO_PIN"
           (Config.DEFAULT_SETTINGS tt tt tt
            ++ [("OPENAI_API_KEY", Config.VStr "sk-test")])
         = Some (Config.VInt 25)).
Proof.
  split; [reflexivity|].
  apply (pins_are_not_configurable unit tt tt tt MoreExamples.no_int
           MoreExamples.no_float MoreExamples.env_with_key).
  reflexivity.
Defined.

Lemma speech_rate_falls_back_to_default_witness :
  Config.load_config tt tt tt MoreExamples.no_int MoreExamples.no_float
    MoreExamples.env_with_bad_rate
  = Ok (Config.DEFAULT_SETTINGS tt tt tt ++ [("OPENAI_API_KEY", Config.VStr "sk-test")])
  /\ Config.get "TTS_RATE"
       (Config.DEFAULT_SETTINGS tt tt tt ++ [("OPENAI_API_KEY", Config.VStr "sk-test")])
     = Some (Config.VInt
               (match MoreExamples.env_with_bad_rate "TTS_RATE" with
                | Some text =>
                    match MoreExamples.no_int text with Some n => n | None => 150 end
                | None => 150
                end)).
Proof.
  split; [reflexivity|].
  apply (speech_rate_falls_back_to_default unit tt tt tt MoreExamples.no_int
           MoreExamples.no_float MoreExamples.env_with_bad_rate).
  reflexivity.
Defined.

(** ** One interaction of the assistant *)

Section InteractionFacts.
Import PyData APIHandler ChatHandlerWorld AIAssistant.

Local Abbreviation handler := (ChatHandlerWorld.t WorldModel.t).

(** Without input, nothing or the empty text, the interaction ends at
    once and the handler is as it was: no fact, no history entry. *)
Theorem interaction_without_input (gpio_cleanup : result unit) (api : api_call)
  (t_user t_reply : str) (h : handler) :
  _handle_interaction (Ok tt) (Ok tt) gpio_cleanup None api t_user t_reply h
  = (Ok NoInput, h)
  /\ _handle_interaction (Ok tt) (Ok tt) gpio_cleanup (Some "") api t_user t_reply h
     = (Ok NoInput, h).
Proof. split; reflexivity. Qed.

(** An utterance that contains "shutdown" is recorded as a fact and ends
    the interaction in the shutdown: the language model is not called and
    the history is not touched. *)
Theorem shutdown_skips_language_model (gpio_off : result unit) (api : api_call)
  (t_user t_reply : str) (c : ascii) (rest : str) (h : handler) :
  Py.contains "shutdown" (Py.lower (c :: rest)) = true ->
  _handle_interaction (Ok tt) gpio_off (Ok tt) (Some (c :: rest)) api t_user t_reply h
  = (Ok Shutdown,
     set_world_model
       (WorldModel.add_fact ("User said: " ++ c :: rest) (world_model h)) h).
Proof.
  intros Hs. unfold _handle_interaction.
  erewrite bind_ok by reflexivity.
  erewrite bind_ok by reflexivity.
  rewrite Hs. reflexivity.
Qed.

Lemma shutdown_skips_language_model_witness :
  Py.contains "shutdown" (Py.lower "please shutdown now") = true
  /\ _handle_interaction (Ok tt) (Ok tt) (Ok tt) (Some "please shutdown now")
       (Examples.api_answers "never asked") "t0" "t1" Examples.handler0
     = (Ok Shutdown,
        set_world_model
          (WorldModel.add_fact ("User said: " ++ "please shutdown now")
             (world_model Examples.handler0))
          Examples.handler0).
Proof.
  split; [reflexivity|].
  apply (shutdown_skips_language_model (Ok tt) (Examples.api_answers "never asked")
           "t0" "t1" "p"%char "lease shutdown now" Examples.handler0).
  reflexivity.
Defined.

Lemma interaction_run (gpio_off gpio_cleanup : result unit) (api : api_call)
  (t_user t_reply : str) (c : ascii) (rest : str) (h : handler) :
  Py.contains "shutdown" (Py.lower (c :: rest)) = false ->
  _handle_interaction (Ok tt) gpio_off gpio_cleanup (Some (c :: rest)) api
    t_user t_reply h
  = let h1 := set_world_model
                (WorldModel.add_fact ("User said: " ++ c :: rest) (world_model h)) h in
    let prompt := "Context:" ++ nl ++ WorldModel.get_summary (world_model h1)
                  ++ nl ++ nl ++ "User input: " ++ c :: rest in
    match generate_response api t_user t_reply prompt h1 with
    | (Ok response, h2) =>
        match gpio_off with
        | Ok _ =>
            (Ok (Responded response),
             set_world_model
               (WorldModel.add_fact ("Assistant responded: " ++ response)
                  (world_model h2)) h2)
        | Raise e =>
            (Raise e,
             set_world_model
               (WorldModel.add_fact ("Assistant responded: " ++ response)
                  (world_model h2)) h2)
        end
    | (Raise e, h2) => (Raise e, h2)
    end.
Proof.
  intros Hs. cbv zeta. unfold _handle_interaction.
  erewrite bind_ok by reflexivity.
  erewrite bind_ok by reflexivity.
  rewrite Hs.
  erewrite bind_ok
    with (s' := set_world_model
                  (WorldModel.add_fact ("User said: " ++ c :: rest) (world_model h)) h)
         (a := WorldModel.get_summary
                 (WorldModel.add_fact ("User said: " ++ c :: rest) (world_model h)))
    by reflexivity.
  unfold bind at 1.
  match goal with
  | |- _ = (let (_, _) := generate_response api t_user t_reply ?p ?s in _) =>
      set (out := generate_response api t_user t_reply p s)
  end.
  match goal with
  | |- context [generate_response api t_user t_reply ?p ?s] =>
      change (generate_response api t_user t_reply p s) with out
  end.
  destruct out as [[response|e] h2]; [|reflexivity].
  erewrite bind_ok by reflexivity.
  destruct gpio_off as [[]|e]; reflexivity.
Qed.

(** An interaction whose language-model call returns: the response is
    the result, the facts gain "User said: ..." first and
    "Assistant responded: ..." last, with at most one learned fact between
    them, and the history gains the prompt and the response. *)
Theorem interaction_records_both_sides (api : api_call) (t_user t_reply : str)
  (c : ascii) (rest response : str) (h : handler) :
  Py.contains "shutdown" (Py.lower (c :: rest)) = false ->
  llm_outcome api t_user (turn_prompt (c :: rest) h) (after_hearing (c :: rest) h)
  = Some (Ok response) ->
  exists learned,
    (length learned <= 1)%nat
    /\ fst (_handle_interaction (Ok tt) (Ok tt) (Ok tt) (Some (c :: rest)) api
              t_user t_reply h) = Ok (Responded response)
    /\ WorldModel.facts
         (world_model (snd (_handle_interaction (Ok tt) (Ok tt) (Ok tt)
                              (Some (c :: rest)) api t_user t_reply h)))
       = WorldModel.facts (world_model h)
         ++ ["User said: " ++ c :: rest] ++ learned
         ++ ["Assistant responded: " ++ response]
    /\ conversation_history
         (snd (_handle_interaction (Ok tt) (Ok tt) (Ok tt) (Some (c :: rest)) api
                 t_user t_reply h))
       = conversation_history h
         ++ [mk_message "user" (turn_prompt (c :: rest) h) t_user;
             mk_message "assistant" response t_reply].
Proof.
  intros Hs Ho. rewrite (interaction_run (Ok tt) (Ok tt) api t_user t_reply c rest h Hs).
  cbv zeta. fold (after_hearing (c :: rest) h). fold (turn_prompt (c :: rest) h).
  rewrite (generate_response_ok api t_user t_reply _ response _ Ho).
  cbn [fst snd world_model set_world_model conversation_history].
  exists (if Py.contains "I learned that" response then [learned_fact response] else []).
  split; [destruct (Py.contains "I learned that" response); cbn; lia|].
  split; [reflexivity|]. split; [|reflexivity].
  cbn [WorldModel.add_fact WorldModel.facts]. rewrite extraction_facts.
  unfold after_hearing. cbn [world_model set_world_model WorldModel.add_fact WorldModel.facts].
  destruct (Py.contains "I learned that" response); rewrite <- ?app_assoc; reflexivity.
Qed.

Lemma interaction_records_both_sides_witness :
  Py.contains "shutdown" (Py.lower "what time is it") = false
  /\ llm_outcome (Examples.api_answers "Noon.") "t0"
       (turn_prompt "what time is it" Examples.handler0)
       (after_hearing "what time is it" Examples.handler0)
     = Some (Ok "Noon.")
  /\ exists learned,
      (length learned <= 1)%nat
      /\ fst (_handle_interaction (Ok tt) (Ok tt) (Ok tt) (Some "what time is it")
                (Examples.api_answers "Noon.") "t0" "t1" Examples.handler0)
         = Ok (Responded "Noon.")
      /\ WorldModel.facts
           (world_model (snd (_handle_interaction (Ok tt) (Ok tt) (Ok tt)
                                (Some "what time is it")
                                (Examples.api_answers "Noon.") "t0" "t1"
                                Examples.handler0)))
         = WorldModel.facts (world_model Examples.handler0)
           ++ ["User said: " ++ "what time is it"] ++ learned
           ++ ["Assistant responded: " ++ "Noon."]
      /\ conversation_history
           (snd (_handle_interaction (Ok tt) (Ok tt) (Ok tt) (Some "what time is it")
                   (Examples.api_answers "Noon.") "t0" "t1" Examples.handler0))
         = conversation_history Examples.handler0
           ++ [mk_message "user" (turn_prompt "what time is it" Examples.handler0) "t0";
               mk_message "assistant" "Noon." "t1"].
Proof.
  split; [reflexivity|]. split; [reflexivity|].
  apply (interaction_records_both_sides (Examples.api_answers "Noon.") "t0" "t1"
           "w"%char "hat time is it" "Noon." Examples.handler0); reflexivity.
Defined.

(** An interaction whose language-model call raises ends in that
    exception: what was heard stays recorded as a fact and as the user
    entry of the history, nothing is recorded for the assistant, and the
    light is not switched off ([gpio_off] is not used). *)
Theorem interaction_fails_with_language_model (gpio_off gpio_cleanup : result unit)
  (api : api_call) (t_user t_reply : str) (c : ascii) (rest : str) (h : handler)
  (e : exn) :
  Py.contains "shutdown" (Py.lower (c :: rest)) = false ->
  llm_outcome api t_user (turn_prompt (c :: rest) h) (after_hearing (c :: rest) h)
  = Some (Raise e) ->
  _handle_interaction (Ok tt) gpio_off gpio_cleanup (Some (c :: rest)) api
    t_user t_reply h
  = (Raise e,
     mk (config h)
        (WorldModel.add_fact ("User said: " ++ c :: rest) (world_model h))
        (conversation_history h
         ++ [mk_message "user" (turn_prompt (c :: rest) h) t_user])
        (max_history h)).
Proof.
  intros Hs Ho.
  rewrite (interaction_run gpio_off gpio_cleanup api t_user t_reply c rest h Hs).
  cbv zeta. fold (after_hearing (c :: rest) h). fold (turn_prompt (c :: rest) h).
  rewrite llm_outcome_run in Ho. apply Some_inj in Ho.
  rewrite generate_response_run, Ho. reflexivity.
Qed.

Lemma interaction_fails_with_language_model_witness :
  Py.contains "shutdown" (Py.lower "what time is it") = false
  /\ llm_outcome (Examples.api_fails (ExternalError "timeout")) "t0"
       (turn_prompt "what time is it" Examples.handler0)
       (after_hearing "what time is it" Examples.handler0)
     = Some (Raise (ExternalError "timeout"))
  /\ _handle_interaction (Ok tt) (Ok tt) (Ok tt) (Some "what time is it")
       (Examples.api_fails (ExternalError "timeout")) "t0" "t1" Examples.handler0
     = (Raise (ExternalError "timeout"),
        mk (config Examples.handler0)
           (WorldModel.add_fact ("User said: " ++ "what time is it")
              (world_model Examples.handler0))
           (conversation_history Examples.handler0
            ++ [mk_message "user" (turn_prompt "what time is it" Examples.handler0) "t0"])
           (max_history Examples.handler0)).
Proof.
  split; [reflexivity|]. split; [reflexivity|].
  apply (interaction_fails_with_language_model (Ok tt) (Ok tt)
           (Examples.api_fails (ExternalError "timeout")) "t0" "t1"
           "w"%char "hat time is it" Examples.handler0 (ExternalError "timeout"));
    reflexivity.
Defined.

End InteractionFacts.
